(** * muacode: the order ledger, the payment return trip and the
      device-activation state machine of [server.js]

    The development embeds the Express handlers of [server.js] and the two
    Mongoose schemas ([models/Order.js], [models/SourceCode.js]) as pure
    functions over an explicit document store, and proves the properties
    of the order lifecycle about them.

    Conventions of the embedding.
    - A handler [async (req, res) => ...] becomes a function from the
      request, the outside world of that request (clock, generated id,
      payment provider) and the store to the response and the new store.
    - JavaScript [undefined] and [null] of an optional field are both [None].
    - Numbers are integers ([Z]): [orderCode] is [Date.now()], amounts are
      VND; dates are milliseconds since the epoch.
    - Request fields carry the types the handlers document
      ([// Body: { orderCode: number, deviceId?: string }]); the truthiness
      tests of the source are kept ([0] and the empty string are falsy).
    - The store is reliable: a query returns, [save] persists the modified
      paths of the document. The unique indexes of the schemas ([_id],
      [orderCode]) are enforced at [create]; the validators of the schemas
      are not part of the model. The one handler whose error path is a
      subject here, the return trip, is also given with a save that may
      reject ([get_order_success_saving]).
    - A request is handled in one piece, except where the development
      says otherwise: [POST /api/activate] is also given in the two pieces
      its [await]s cut it into.
    - [crypto.createHmac('sha256', key).update(msg).digest('hex')] is a
      parameter of the development; it throws when the key is [undefined]. *)

From Stdlib Require Import ZArith String Ascii List Bool Lia.
From stdpp Require Import base option list gmap strings pretty.
Import ListNotations.

Local Open Scope string_scope.

(** ** JavaScript coercions used by the handlers *)

Module JS.

(** [!!v] for [v : number | undefined]. *)
Definition truthy_num (v : option Z) : bool :=
  match v with
  | Some n => negb (n =? 0)%Z
  | None => false
  end.

(** [!!v] for [v : string | undefined | null]. *)
Definition truthy_str (v : option string) : bool :=
  match v with
  | Some s => negb (String.eqb s "")
  | None => false
  end.

(** [v || null] on an optional string. *)
Definition or_null (v : option string) : option string :=
  if truthy_str v then v else None.

(** [a || b] on optional strings. *)
Definition or_else (a b : option string) : option string :=
  if truthy_str a then a else b.

(** [`${v}`] for an optional string. *)
Definition template_str (v : option string) : string :=
  match v with
  | Some s => s
  | None => "undefined"
  end.

(** [`${n}`] for an integer. *)
Definition template_num (n : Z) : string := pretty n.

End JS.

(** ** Data model: [models/SourceCode.js] and [models/Order.js] *)

Definition ObjectId := positive.
Definition Date := Z.
Bind Scope positive_scope with ObjectId.
Bind Scope Z_scope with Date.

Record SourceCode := mkSourceCode {
  title : string;
  imageUrl : option string;
  description : option string;
  driveLink : string;
  priceVND : Z
}.

Inductive Status := PENDING | PAID.

Global Instance Status_eq_dec : EqDecision Status.
Proof. solve_decision. Defined.

Record Activation := mkActivation {
  isActivated : bool;
  activatedAt : option Date;
  deviceId : option string;
  ip : option string
}.

Global Instance Activation_eq_dec : EqDecision Activation.
Proof. solve_decision. Defined.

(** The schema default [() => ({})]: only [isActivated] has a default. *)
Definition default_activation : Activation :=
  mkActivation false None None None.

Record Order := mkOrder {
  _id : ObjectId;
  buyerName : option string;
  buyerEmail : option string;
  code : ObjectId;
  amount : Z;
  orderCode : Z;
  status : Status;
  paymentLinkId : option string;
  checkoutUrl : option string;
  paidAt : option Date;
  activation : option Activation
}.

Global Instance Order_eq_dec : EqDecision Order.
Proof. solve_decision. Defined.

(** Field assignments on a document. *)
Definition set_paid (t : Date) (o : Order) : Order :=
  mkOrder (_id o) (buyerName o) (buyerEmail o) (code o) (amount o)
          (orderCode o) PAID (paymentLinkId o) (checkoutUrl o) (Some t)
          (activation o).

Definition set_activation (a : option Activation) (o : Order) : Order :=
  mkOrder (_id o) (buyerName o) (buyerEmail o) (code o) (amount o)
          (orderCode o) (status o) (paymentLinkId o) (checkoutUrl o)
          (paidAt o) a.

Definition set_payment_link (pl co : option string) (o : Order) : Order :=
  mkOrder (_id o) (buyerName o) (buyerEmail o) (code o) (amount o)
          (orderCode o) (status o) pl co (paidAt o) (activation o).

(** [order.activation?.isActivated] as a condition. *)
Definition is_activated (o : Order) : bool :=
  match activation o with
  | Some a => isActivated a
  | None => false
  end.

(** ** The document store *)

Record DB := mkDB {
  codes : gmap ObjectId SourceCode;
  orders : list Order
}.

Definition empty_db : DB := mkDB ∅ [].

Definition with_orders (os : list Order) (db : DB) : DB := mkDB (codes db) os.
Definition with_codes (cs : gmap ObjectId SourceCode) (db : DB) : DB :=
  mkDB cs (orders db).

Module Store.

Definition by_id (id : ObjectId) (o : Order) : bool := bool_decide (_id o = id).
Definition by_orderCode (c : Z) (o : Order) : bool := (orderCode o =? c)%Z.

(** [Order.findById(id)] *)
Definition findById (id : ObjectId) (db : DB) : option Order :=
  find (by_id id) (orders db).

(** [Order.findOne({ orderCode })] *)
Definition findOne (c : Z) (db : DB) : option Order :=
  find (by_orderCode c) (orders db).

(** [.populate('code')]: the referenced catalogue item, [null] when it
    no longer exists. *)
Definition populate (o : Order) (db : DB) : option SourceCode :=
  codes db !! code o.

(** An update query changes the first matching document. *)
Fixpoint update_first (p : Order -> bool) (f : Order -> Order)
         (l : list Order) : list Order :=
  match l with
  | [] => []
  | o :: l' => if p o then f o :: l' else o :: update_first p f l'
  end.

(** [Order.findByIdAndUpdate(id, ...)] and [doc.save()]. *)
Definition updateById (id : ObjectId) (f : Order -> Order) (db : DB) : DB :=
  with_orders (update_first (by_id id) f (orders db)) db.

(** [Order.updateOne({ orderCode }, ...)] *)
Definition updateOne (c : Z) (f : Order -> Order) (db : DB) : DB :=
  with_orders (update_first (by_orderCode c) f (orders db)) db.

(** [Order.create(doc)]: rejected by the unique indexes on [_id] and
    [orderCode]. *)
Definition create (o : Order) (db : DB) : option DB :=
  if existsb (fun o' => by_id (_id o) o' || by_orderCode (orderCode o) o')
             (orders db)
  then None
  else Some (with_orders (orders db ++ [o]) db).

End Store.

(** ** Requests, responses and the world outside the process *)

(** [process.env] *)
Record Env := mkEnv {
  PAYOS_CHECKSUM_KEY : option string;
  ADMIN_ACTIVATE_SECRET : option string;
  BASE_URL : option string
}.

(** The argument and the result of [payos.paymentRequests.create]. *)
Record PaymentRequest := mkPaymentRequest {
  pr_orderCode : Z;
  pr_amount : Z;
  pr_description : string;
  pr_returnUrl : string;
  pr_cancelUrl : string;
  pr_buyerName : option string;
  pr_buyerEmail : option string;
  pr_items : list (string * Z * Z)
}.

Record PaymentLink := mkPaymentLink {
  pl_paymentLinkId : option string;
  pl_checkoutUrl : option string;
  pl_data : option (option string * option string)
}.

(** What a request reads from outside the store: the clock ([Date.now()],
    [new Date()]), the [_id] Mongoose generates for a new document, and the
    payment provider ([None]: the call throws). *)
Record World := mkWorld {
  now : Date;
  newObjectId : ObjectId;
  payos_create : PaymentRequest -> option PaymentLink
}.

Inductive JsonBody :=
| JError (error : string)
| JAlreadyActivated (error : string) (at_ : option Date) (device : option string)
| JActivated (message : string) (orderId : ObjectId) (oc : Z)
             (device : option string) (at_ : option Date)
             (link : option string)
| JOk
| JStatus (s : Status).

Inductive Locals :=
| LOrderStatus (order : Order) (populated : option SourceCode) (ok : bool).

(** [Unanswered]: the promise of the handler rejects outside any [try],
    and Express sends nothing. *)
Inductive Response :=
| Send (st : nat) (text : string)
| Json (st : nat) (body : JsonBody)
| Render (view : string) (locals : Locals)
| Redirect (url : option string)
| Unanswered.

(** A value of [req.headers[...]]. *)
Inductive HeaderValue :=
| HAbsent
| HString (s : string)
| HArray (l : list string).

Record OrderForm := mkOrderForm {
  f_name : option string;
  f_email : option string;
  f_codeId : ObjectId
}.

(** [req.query] of the return trip. *)
Record ReturnQuery := mkReturnQuery {
  q_status : option string;
  q_orderCode : option string;
  q_sig : option string
}.

Record ActivateReq := mkActivateReq {
  a_orderCode : option Z;
  a_deviceId : option string;
  a_forwarded : HeaderValue;
  a_remoteAddress : option string;
  a_ip : option string
}.

Record ValidateReq := mkValidateReq {
  v_orderCode : option Z;
  v_deviceId : option string
}.

Record ResetReq := mkResetReq {
  r_secret : option string;
  r_orderCode : option Z
}.

Inductive Request :=
| PostOrder (f : OrderForm)
| GetOrderSuccess (id : ObjectId) (q : ReturnQuery)
| GetOrderCancel (id : ObjectId)
| GetApiOrder (id : ObjectId)
| PostAdminCodes (authorized : bool) (c : SourceCode)
| PutAdminCodes (authorized : bool) (id : ObjectId) (c : SourceCode)
| DeleteAdminCodes (authorized : bool) (id : ObjectId)
| PostAdminMarkPaid (authorized : bool) (id : ObjectId)
| PostAdminActivationReset (authorized : bool) (id : ObjectId)
| PostApiActivate (r : ActivateReq)
| PostApiAdminResetActivation (r : ResetReq)
| PostApiValidate (r : ValidateReq).

(** ** The handlers of [server.js] *)

Section Handlers.

(** [crypto.createHmac('sha256', key).update(msg).digest('hex')] *)
Variable hmac_sha256_hex : string -> string -> string.

Variable env : Env.

(** The signature both [POST /order] and the return trip compute over
    [`${orderCode}:${status}`]; [None] when [createHmac] throws on an
    [undefined] key. *)
Definition hmac_hex (oc : Z) (st : option string) : option string :=
  match PAYOS_CHECKSUM_KEY env with
  | Some key =>
      Some (hmac_sha256_hex key
              (JS.template_num oc ++ ":" ++ JS.template_str st))
  | None => None
  end.

(** [basicAuth({...})] in front of the [/admin] routes. *)
Definition adminAuth (authorized : bool) (h : DB -> Response * DB)
           (db : DB) : Response * DB :=
  if authorized then h db else (Send 401 "", db).

(** [app.post('/order', ...)] *)
Definition post_order (w : World) (f : OrderForm) (db : DB)
  : Response * DB :=
  let failure := Send 500 "Không tạo được đơn / link thanh toán." in
  match codes db !! f_codeId f with
  | None => (Send 404 "Code not found", db)
  | Some c =>
      let oc := now w in
      let order :=
        mkOrder (newObjectId w) (f_name f) (f_email f) (f_codeId f)
                (priceVND c) oc PENDING None None None
                (Some default_activation) in
      match Store.create order db with
      | None => (failure, db)
      | Some db1 =>
          let statusText := "PAID" in
          match hmac_hex oc (Some statusText) with
          | None => (failure, db1)
          | Some sig =>
              let base := JS.template_str (BASE_URL env) in
              let oid := pretty (Npos (_id order)) in
              let returnUrl :=
                base ++ "/order/" ++ oid ++ "/success?orderCode="
                     ++ JS.template_num oc ++ "&status=" ++ statusText
                     ++ "&sig=" ++ sig in
              let cancelUrl := base ++ "/order/" ++ oid ++ "/cancel" in
              match payos_create w
                      (mkPaymentRequest oc (priceVND c)
                         "Thanh toán đơn mua code" returnUrl cancelUrl
                         (f_name f) (f_email f)
                         [(title c, 1%Z, priceVND c)]) with
              | None => (failure, db1)
              | Some pl =>
                  let pid :=
                    JS.or_else (pl_paymentLinkId pl)
                               (pl_data pl ≫= fst) in
                  let url :=
                    JS.or_else (pl_checkoutUrl pl)
                               (pl_data pl ≫= snd) in
                  (Redirect url,
                   Store.updateById (_id order)
                                    (set_payment_link pid url) db1)
              end
          end
      end
  end.

(** The test of the return trip, inside its [try]: [true] exactly when
    the branch that marks the order PAID is entered. A throw of
    [createHmac] lands in the empty [catch]. *)
Definition return_verified (order : Order) (q : ReturnQuery) : bool :=
  match hmac_hex (orderCode order) (q_status q) with
  | Some expected =>
      bool_decide (q_status q = Some "PAID")
      && bool_decide (q_sig q = Some expected)
  | None => false
  end.

(** [app.get('/order/:id/success', ...)], with the outcome of
    [await order.save()] as [saved]. The handler assigns [order.status]
    and [order.paidAt] to the document it has read and then saves it, all
    inside the [try]: when the save rejects, the empty [catch] swallows the
    rejection, the store is as it was, and [res.render] still gets the
    document with the two assignments. *)
Definition get_order_success_saving (saved : bool) (w : World)
           (id : ObjectId) (q : ReturnQuery) (db : DB) : Response * DB :=
  match Store.findById id db with
  | None => (Send 404 "Not found", db)
  | Some order =>
      let populated := Store.populate order db in
      if return_verified order q then
        let order' := set_paid (now w) order in
        (Render "order_status" (LOrderStatus order' populated true),
         if saved
         then Store.updateById (_id order) (set_paid (now w)) db
         else db)
      else
        (Render "order_status" (LOrderStatus order populated true), db)
  end.

(** [app.get('/order/:id/success', ...)] on a store that accepts the
    write. *)
Definition get_order_success (w : World) (id : ObjectId) (q : ReturnQuery)
           (db : DB) : Response * DB :=
  get_order_success_saving true w id q db.

(** [app.get('/order/:id/cancel', ...)] *)
Definition get_order_cancel (id : ObjectId) (db : DB) : Response * DB :=
  match Store.findById id db with
  | None => (Send 404 "Not found", db)
  | Some order =>
      (Render "order_status"
              (LOrderStatus order (Store.populate order db) false), db)
  end.

(** [app.get('/api/order/:id', ...)] *)
Definition get_api_order (id : ObjectId) (db : DB) : Response * DB :=
  match Store.findById id db with
  | None => (Json 404 (JError "Not found"), db)
  | Some order => (Json 200 (JStatus (status order)), db)
  end.

(** [app.post('/admin/codes', ...)]: the item is stored under the
    generated [_id], which the unique index on [_id] wants new. *)
Definition post_admin_codes (w : World) (c : SourceCode) (db : DB)
  : Response * DB :=
  match codes db !! newObjectId w with
  | Some _ => (Unanswered, db)
  | None =>
      (Redirect (Some "/admin/codes"),
       with_codes (<[newObjectId w := c]> (codes db)) db)
  end.

(** [app.put('/admin/codes/:id', ...)] *)
Definition put_admin_codes (id : ObjectId) (c : SourceCode) (db : DB)
  : Response * DB :=
  (Redirect (Some "/admin/codes"),
   match codes db !! id with
   | Some _ => with_codes (<[id := c]> (codes db)) db
   | None => db
   end).

(** [app.delete('/admin/codes/:id', ...)] *)
Definition delete_admin_codes (id : ObjectId) (db : DB) : Response * DB :=
  (Redirect (Some "/admin/codes"), with_codes (delete id (codes db)) db).

(** [app.post('/admin/orders/:id/mark-paid', ...)] *)
Definition post_admin_mark_paid (w : World) (id : ObjectId) (db : DB)
  : Response * DB :=
  (Redirect (Some "/admin/orders"),
   Store.updateById id (set_paid (now w)) db).

(** [app.post('/admin/activations/:id/reset', ...)] *)
Definition post_admin_activation_reset (id : ObjectId) (db : DB)
  : Response * DB :=
  (Redirect (Some "back"),
   Store.updateById id
     (set_activation (Some (mkActivation false None None None))) db).

(** The [ip] computed by [POST /api/activate]: the first element of an
    array-valued header, else the first truthy of the header, the socket
    address and [req.ip], else the empty string. *)
Definition client_ip (r : ActivateReq) : option string :=
  match a_forwarded r with
  | HArray l => head l
  | HString s =>
      JS.or_else (Some s)
        (JS.or_else (a_remoteAddress r) (JS.or_else (a_ip r) (Some "")))
  | HAbsent =>
      JS.or_else (a_remoteAddress r) (JS.or_else (a_ip r) (Some ""))
  end.

(** [POST /api/activate] awaits twice: the query
    [Order.findOne({ orderCode }).populate('code')] and [order.save()].
    What the handler holds between the two is either a finished response
    or the document it is about to save. *)
Inductive ActivateStep :=
| Respond (r : Response)
| Save (order : Order) (populated : option SourceCode) (a : Activation).

(** From the start of the handler to [await order.save()]. *)
Definition activate_read (w : World) (r : ActivateReq) (db : DB)
  : ActivateStep :=
  match a_orderCode r with
  | Some oc =>
      if negb (JS.truthy_num (Some oc)) then
        Respond (Json 400 (JError "orderCode is required"))
      else
        match Store.findOne oc db with
        | None => Respond (Json 404 (JError "Order not found"))
        | Some order =>
            if negb (bool_decide (status order = PAID)) then
              Respond (Json 400 (JError "Order is not PAID"))
            else if is_activated order then
              Respond (Json 409
                (JAlreadyActivated "Order already activated"
                   (activation order ≫= activatedAt)
                   (activation order ≫= deviceId)))
            else
              Save order (Store.populate order db)
                   (mkActivation true (Some (now w))
                                 (JS.or_null (a_deviceId r))
                                 (client_ip r))
        end
  | None => Respond (Json 400 (JError "orderCode is required"))
  end.

(** [order.save()] and the response after it. *)
Definition activate_write (s : ActivateStep) (db : DB) : Response * DB :=
  match s with
  | Respond r => (r, db)
  | Save order populated a =>
      (Json 200
         (JActivated "Kích hoạt thành công" (_id order) (orderCode order)
            (deviceId a) (activatedAt a)
            (JS.or_null (driveLink <$> populated))),
       Store.updateById (_id order) (set_activation (Some a)) db)
  end.

(** [app.post('/api/activate', ...)] handled without another request in
    between. *)
Definition post_api_activate (w : World) (r : ActivateReq) (db : DB)
  : Response * DB :=
  activate_write (activate_read w r db) db.

(** [app.post('/api/admin/reset-activation', ...)] *)
Definition post_api_admin_reset_activation (r : ResetReq) (db : DB)
  : Response * DB :=
  if negb (bool_decide (r_secret r = ADMIN_ACTIVATE_SECRET env)) then
    (Json 401 (JError "unauthorized"), db)
  else
    match r_orderCode r with
    | Some oc =>
        if negb (JS.truthy_num (Some oc)) then
          (Json 400 (JError "orderCode required"), db)
        else (Json 200 JOk, Store.updateOne oc (set_activation None) db)
    | None => (Json 400 (JError "orderCode required"), db)
    end.

(** [app.post('/api/validate', ...)] *)
Definition post_api_validate (r : ValidateReq) (db : DB) : Response * DB :=
  match v_orderCode r with
  | Some oc =>
      if negb (JS.truthy_num (Some oc)) || negb (JS.truthy_str (v_deviceId r))
      then (Json 400 (JError "orderCode & deviceId required"), db)
      else
        match Store.findOne oc db with
        | None => (Json 404 (JError "Order not found"), db)
        | Some order =>
            if negb (bool_decide (status order = PAID)) then
              (Json 400 (JError "Order is not PAID"), db)
            else if negb (is_activated order) then
              (Json 403 (JError "Order not activated yet"), db)
            else
              let bound := activation order ≫= deviceId in
              if JS.truthy_str bound
                 && negb (bool_decide (bound = v_deviceId r))
              then (Json 409 (JError "Device mismatch"), db)
              else (Json 200 JOk, db)
        end
  | None => (Json 400 (JError "orderCode & deviceId required"), db)
  end.

(** The routes that read or write an order or write the catalogue; the
    pages that only list or show ([/], [/code/:id], [/order/new/:codeId],
    the admin lists and forms, [/links]) leave the store alone. *)
Definition handle (w : World) (req : Request) (db : DB) : Response * DB :=
  match req with
  | PostOrder f => post_order w f db
  | GetOrderSuccess id q => get_order_success w id q db
  | GetOrderCancel id => get_order_cancel id db
  | GetApiOrder id => get_api_order id db
  | PostAdminCodes a c => adminAuth a (post_admin_codes w c) db
  | PutAdminCodes a id c => adminAuth a (put_admin_codes id c) db
  | DeleteAdminCodes a id => adminAuth a (delete_admin_codes id) db
  | PostAdminMarkPaid a id => adminAuth a (post_admin_mark_paid w id) db
  | PostAdminActivationReset a id =>
      adminAuth a (post_admin_activation_reset id) db
  | PostApiActivate r => post_api_activate w r db
  | PostApiAdminResetActivation r => post_api_admin_reset_activation r db
  | PostApiValidate r => post_api_validate r db
  end.

(** The store after a sequence of requests, each with its own world. *)
Fixpoint run (reqs : list (World * Request)) (db : DB) : DB :=
  match reqs with
  | [] => db
  | (w, req) :: rest => run rest (snd (handle w req db))
  end.

(** Two [POST /api/activate] requests whose queries both complete before
    either [save] does: the event loop resumes the first handler after
    its [await order.save()] only once the second has read. *)
Definition activate_interleaved (w1 w2 : World) (r1 r2 : ActivateReq)
           (db : DB) : Response * Response * DB :=
  let s1 := activate_read w1 r1 db in
  let s2 := activate_read w2 r2 db in
  let '(resp1, db1) := activate_write s1 db in
  let '(resp2, db2) := activate_write s2 db1 in
  (resp1, resp2, db2).

(** The same two requests handled one after the other. *)
Definition activate_serial (w1 w2 : World) (r1 r2 : ActivateReq)
           (db : DB) : Response * Response * DB :=
  let '(resp1, db1) := post_api_activate w1 r1 db in
  let '(resp2, db2) := post_api_activate w2 r2 db1 in
  (resp1, resp2, db2).

End Handlers.

(** ** Vocabulary of the lifecycle properties *)

Section Ledger.

Variable hmac_sha256_hex : string -> string -> string.
Variable env : Env.

(** The order a request marks PAID, if any: the order of a verified
    return trip, or the one named to the admin's mark-paid action. *)
Definition paid_target (req : Request) (db : DB) : option ObjectId :=
  match req with
  | GetOrderSuccess id q =>
      match Store.findById id db with
      | Some o =>
          if return_verified hmac_sha256_hex env o q then Some id else None
      | None => None
      end
  | PostAdminMarkPaid true id => Some id
  | _ => None
  end.

(** The writes of the requests that mark nothing PAID: the orders are
    left alone, one new PENDING order is inserted, or the first order a
    query selects gets its payment link or its activation record
    replaced. *)
Inductive quiet_write (db : DB) : DB -> Prop :=
| write_none cs :
    quiet_write db (with_codes cs db)
| write_create o :
    _id o ∉ (_id <$> orders db) -> status o = PENDING ->
    paidAt o = None -> activation o = Some default_activation ->
    quiet_write db (with_orders (orders db ++ [o]) db)
| write_payment_link id pl url :
    quiet_write db (Store.updateById id (set_payment_link pl url) db)
| write_deactivate p a :
    (forall o, is_activated (set_activation a o) = false) ->
    quiet_write db
      (with_orders (Store.update_first p (set_activation a) (orders db)) db)
| write_activate o a :
    o ∈ orders db -> status o = PAID ->
    quiet_write db (Store.updateById (_id o) (set_activation (Some a)) db)
| write_then db1 db2 :
    quiet_write db db1 -> quiet_write db1 db2 -> quiet_write db db2.

(** An activated order is a PAID order. *)
Definition activated_only_if_paid (o : Order) : Prop :=
  is_activated o = true -> status o = PAID.

(** The invariant of the order collection: the unique [_id] index, and
    every activated order PAID. *)
Definition ledger_ok (db : DB) : Prop :=
  NoDup (_id <$> orders db) /\ Forall activated_only_if_paid (orders db).

(** An order keeps its payment state from one store to the next. *)
Definition keeps_paid (db db' : DB) : Prop :=
  forall id o, Store.findById id db = Some o ->
    exists o', Store.findById id db' = Some o'
               /\ paidAt o' = paidAt o /\ status o' = status o.

End Ledger.

(** ** A sample shop, to run the handlers on concrete requests *)

Module Sample.

(** Stands in for HMAC-SHA256 where a handler has to be evaluated. *)
Definition mac (key msg : string) : string := key ++ "|" ++ msg.

Definition env : Env := mkEnv (Some "k") (Some "s3cret") (Some "http://shop").

Definition item : SourceCode :=
  mkSourceCode "Shop theme" None None "https://drive/abc" 100000%Z.

Definition world (t : Date) (id : ObjectId) : World :=
  mkWorld t id
    (fun _ => Some (mkPaymentLink (Some "pl1") (Some "https://pay/1") None)).

Definition pending : Order :=
  mkOrder 1%positive (Some "An") (Some "an@example.org") 7%positive
          100000%Z 42%Z PENDING
          None None None (Some default_activation).

Definition paid : Order := set_paid 1000%Z pending.

Definition activated : Order :=
  set_activation
    (Some (mkActivation true (Some 2000%Z) (Some "D1") (Some "10.0.0.1")))
    paid.

Definition db_of (o : Order) : DB := mkDB {[ 7%positive := item ]} [o].

(** The query of the signed return URL of [pending], with any value for
    its [orderCode] parameter. *)
Definition return_query (oc : string) : ReturnQuery :=
  mkReturnQuery (Some "PAID") (Some oc) (Some "k|42:PAID").

Definition activate_from (device : string) : ActivateReq :=
  mkActivateReq (Some 42%Z) (Some device) HAbsent (Some "10.0.0.9") None.

(** A purchase from the first listing to the activation. *)
Definition session : list (World * Request) :=
  [ (world 10 7, PostAdminCodes true item);
    (world 42 1, PostOrder (mkOrderForm (Some "An") (Some "an@example.org") 7));
    (world 1000 9, GetOrderSuccess 1 (return_query "42"));
    (world 2000 9,
     PostApiActivate
       (mkActivateReq (Some 42%Z) (Some "D1") (HString "10.0.0.1") None None)) ].

Definition purchased : Order :=
  set_payment_link (Some "pl1") (Some "https://pay/1") activated.

End Sample.

(** ** Vocabulary of the route properties *)

(** What a route can write, read off its handler: nothing, the catalogue,
    a new order, the payment of an order, the clearing of an activation,
    an activation. An admin route that [adminAuth] refuses writes
    nothing. *)
Inductive WriteKind :=
| KNone | KCatalogue | KCreate | KPaid | KReset | KActivate.

Global Instance WriteKind_eq_dec : EqDecision WriteKind.
Proof. solve_decision. Defined.

Definition request_kind (req : Request) : WriteKind :=
  match req with
  | PostOrder _ => KCreate
  | GetOrderSuccess _ _ => KPaid
  | GetOrderCancel _ => KNone
  | GetApiOrder _ => KNone
  | PostAdminCodes true _ => KCatalogue
  | PutAdminCodes true _ _ => KCatalogue
  | DeleteAdminCodes true _ => KCatalogue
  | PostAdminMarkPaid true _ => KPaid
  | PostAdminActivationReset true _ => KReset
  | PostApiActivate _ => KActivate
  | PostApiAdminResetActivation _ => KReset
  | PostApiValidate _ => KNone
  | PostAdminCodes false _ => KNone
  | PutAdminCodes false _ _ => KNone
  | DeleteAdminCodes false _ => KNone
  | PostAdminMarkPaid false _ => KNone
  | PostAdminActivationReset false _ => KNone
  end.

(** The writes of the handlers, by kind. *)
Inductive handler_write (db : DB) : WriteKind -> DB -> Prop :=
| hw_same k :
    handler_write db k db
| hw_catalogue cs :
    handler_write db KCatalogue (with_codes cs db)
| hw_create o :
    _id o ∉ (_id <$> orders db) -> orderCode o ∉ (orderCode <$> orders db) ->
    status o = PENDING -> is_activated o = false ->
    handler_write db KCreate (with_orders (orders db ++ [o]) db)
| hw_link id pl url :
    handler_write db KCreate
      (Store.updateById id (set_payment_link pl url) db)
| hw_paid id t :
    handler_write db KPaid (Store.updateById id (set_paid t) db)
| hw_reset p a :
    (forall o, is_activated (set_activation a o) = false) ->
    handler_write db KReset
      (with_orders (Store.update_first p (set_activation a) (orders db)) db)
| hw_activate o a :
    o ∈ orders db -> status o = PAID -> is_activated o = false ->
    handler_write db KActivate
      (Store.updateById (_id o) (set_activation (Some a)) db)
| hw_then k db1 db2 :
    handler_write db k db1 -> handler_write db1 k db2 ->
    handler_write db k db2.

(** What an order keeps for life: its keys, what was bought, for how
    much and by whom; and its being PAID once it is. *)
Definition evolves (o o' : Order) : Prop :=
  _id o' = _id o /\ orderCode o' = orderCode o /\ amount o' = amount o
  /\ code o' = code o /\ buyerName o' = buyerName o
  /\ buyerEmail o' = buyerEmail o
  /\ (status o = PAID -> status o' = PAID).

(** The two unique indexes of the order collection. *)
Definition unique_keys (db : DB) : Prop :=
  NoDup (_id <$> orders db) /\ NoDup (orderCode <$> orders db).

(** No order of the store has the [_id] or the [orderCode] a new order
    would get. *)
Definition keys_free (id : ObjectId) (oc : Z) (db : DB) : Prop :=
  Store.findById id db = None /\ Store.findOne oc db = None.

(** The signature [POST /order] puts into the return URL of an order. *)
Definition return_signature (hmac : string -> string -> string)
           (key : string) (oc : Z) : string :=
  hmac key (JS.template_num oc ++ ":" ++ "PAID").

(** The argument [POST /order] passes to [payos.paymentRequests.create]. *)
Definition checkout_request (hmac : string -> string -> string)
           (key : string) (base : option string) (w : World) (f : OrderForm)
           (c : SourceCode) : PaymentRequest :=
  mkPaymentRequest (now w) (priceVND c) "Thanh toán đơn mua code"
    (JS.template_str base ++ "/order/" ++ pretty (Npos (newObjectId w))
       ++ "/success?orderCode=" ++ JS.template_num (now w)
       ++ "&status=" ++ "PAID" ++ "&sig=" ++ return_signature hmac key (now w))
    (JS.template_str base ++ "/order/" ++ pretty (Npos (newObjectId w))
       ++ "/cancel")
    (f_name f) (f_email f) [(title c, 1%Z, priceVND c)].

(** The order [POST /order] creates, with the payment link it ends up
    with. *)
Definition new_order (w : World) (f : OrderForm) (c : SourceCode)
           (pl url : option string) : Order :=
  mkOrder (newObjectId w) (f_name f) (f_email f) (f_codeId f) (priceVND c)
          (now w) PENDING pl url None (Some default_activation).

(** [paymentLink.x || paymentLink.data?.x] for the two fields stored. *)
Definition link_id (pl : PaymentLink) : option string :=
  JS.or_else (pl_paymentLinkId pl) (pl_data pl ≫= fst).
Definition link_url (pl : PaymentLink) : option string :=
  JS.or_else (pl_checkoutUrl pl) (pl_data pl ≫= snd).

(** A string without [":"]. *)
Fixpoint colon_free (s : string) : bool :=
  match s with
  | EmptyString => true
  | String c s' => negb (Ascii.eqb c ":"%char) && colon_free s'
  end.

(** ** A second shop, with an order already activated and one still open *)

Module Scenario.

Definition theme : SourceCode :=
  mkSourceCode "Blog theme" (Some "/public/blog.png") None
               "https://drive/blog" 250000%Z.

Definition first : Order :=
  mkOrder 11%positive (Some "Binh") (Some "binh@example.org") 3%positive
          250000%Z 1700000000001%Z PAID (Some "pl-11") (Some "https://pay/11")
          (Some 1700000000500%Z)
          (Some (mkActivation true (Some 1700000000900%Z) (Some "laptop")
                   (Some "198.51.100.7"))).

Definition second : Order :=
  mkOrder 12%positive (Some "Chi") None 3%positive
          250000%Z 1700000000002%Z PENDING None None None
          (Some default_activation).

Definition shop : DB := mkDB {[ 3%positive := theme ]} [first; second].

Definition env : Env := mkEnv (Some "checksum") None (Some "https://muacode.test").

(** A provider that answers in the nested [data] form. *)
Definition provider (r : PaymentRequest) : option PaymentLink :=
  Some (mkPaymentLink None None
          (Some (Some "pl-new", Some "https://pay/new"))).

Definition world (t : Date) (id : ObjectId) : World := mkWorld t id provider.

(** A provider whose call throws. *)
Definition offline (t : Date) (id : ObjectId) : World :=
  mkWorld t id (fun _ => None).

Definition form : OrderForm :=
  mkOrderForm (Some "Dung") (Some "dung@example.org") 3%positive.

(** A day without resets: a new order, a price change, the admin marking
    the open order paid, its activation, the item taken off the shelf, a
    license check, a replayed activation. *)
Definition day : list (World * Request) :=
  [ (world 1700000100000 13, PostOrder form);
    (world 1700000200000 14,
     PutAdminCodes true 3
       (mkSourceCode "Blog theme" None None "https://drive/blog-v2" 300000%Z));
    (world 1700000300000 15, PostAdminMarkPaid true 12);
    (world 1700000400000 16,
     PostApiActivate
       (mkActivateReq (Some 1700000000002%Z) (Some "desk") HAbsent
                      (Some "192.0.2.1") None));
    (world 1700000500000 17, DeleteAdminCodes true 3);
    (world 1700000600000 18,
     PostApiValidate (mkValidateReq (Some 1700000000001%Z) (Some "laptop")));
    (world 1700000700000 19,
     PostApiActivate
       (mkActivateReq (Some 1700000000001%Z) (Some "tablet") HAbsent
                      (Some "192.0.2.2") None)) ].

End Scenario.

(** * Properties *)

(** ** Queries and updates of the store *)

Section StoreFacts.

Implicit Types (p q : Order -> bool) (f : Order -> Order) (l : list Order).

Lemma find_holds p l o : find p l = Some o -> p o = true /\ o ∈ l.
Proof.
  induction l as [|x l IH]; simpl; [discriminate|].
  destruct (p x) eqn:Hx.
  - intros [= <-]. split; [assumption | left].
  - intros H. destruct (IH H). split; [assumption | by right].
Qed.

Lemma update_first_miss p f l : find p l = None -> Store.update_first p f l = l.
Proof.
  induction l as [|x l IH]; simpl; [reflexivity|].
  destruct (p x); [discriminate|]. intros H. by rewrite IH.
Qed.

(** The updated document is the one the same query returns. *)
Lemma find_update_first p f l o :
  find p l = Some o -> p (f o) = true ->
  find p (Store.update_first p f l) = Some (f o).
Proof.
  induction l as [|x l IH]; simpl; [discriminate|].
  destruct (p x) eqn:Hx.
  - intros [= <-] Hf. simpl. by rewrite Hf.
  - intros H Hf. simpl. rewrite Hx. by apply IH.
Qed.

(** A query by another key that returned the updated document returns
    its new version. *)
Lemma find_update_first_other p q f l o :
  find p l = Some o -> find q l = Some o -> q (f o) = true ->
  find q (Store.update_first p f l) = Some (f o).
Proof.
  induction l as [|x l IH]; simpl; [discriminate|].
  destruct (p x) eqn:Hp, (q x) eqn:Hq; simpl.
  - intros [= <-] _ Hf. by rewrite Hf.
  - intros [= <-] H _. apply find_holds in H as [H _]. congruence.
  - intros H [= <-]. apply find_holds in H as [H _]. congruence.
  - rewrite Hq. apply IH.
Qed.

(** An update that keeps the key of a query keeps what it finds, up to
    the update itself. *)
Lemma find_update_first_keeps p q f l o :
  (forall x, q (f x) = q x) ->
  find q l = Some o ->
  find q (Store.update_first p f l) = Some o
  \/ find q (Store.update_first p f l) = Some (f o).
Proof.
  intros Hf. induction l as [|x l IH]; simpl; [discriminate|].
  destruct (p x) eqn:Hp, (q x) eqn:Hq; simpl; rewrite ?Hf, ?Hq.
  - intros [= <-]. by right.
  - intros H. by left.
  - intros H. by left.
  - apply IH.
Qed.

(** An update of documents the query does not select is not seen by it. *)
Lemma find_update_first_disjoint p q f l :
  (forall x, p x = true -> q x = false /\ q (f x) = false) ->
  find q (Store.update_first p f l) = find q l.
Proof.
  intros Hpq. induction l as [|x l IH]; simpl; [reflexivity|].
  destruct (p x) eqn:Hp; simpl.
  - destruct (Hpq x Hp) as [-> ->]. reflexivity.
  - by rewrite IH.
Qed.

Lemma find_app_found p l l' o : find p l = Some o -> find p (l ++ l') = Some o.
Proof.
  induction l as [|x l IH]; simpl; [discriminate|].
  destruct (p x); [done | apply IH].
Qed.

Lemma update_first_ids p f l :
  (forall x, _id (f x) = _id x) ->
  _id <$> Store.update_first p f l = _id <$> l.
Proof.
  intros Hf. induction l as [|x l IH]; [reflexivity|].
  cbn [Store.update_first]. destruct (p x); rewrite !fmap_cons.
  - by rewrite Hf.
  - by rewrite IH.
Qed.

Lemma Forall_update_first (P : Order -> Prop) p f l :
  (forall x, P x -> P (f x)) ->
  Forall P l -> Forall P (Store.update_first p f l).
Proof.
  intros Hf. induction 1 as [|x l Hx Hl IH]; simpl; [constructor|].
  destruct (p x); constructor; auto.
Qed.

Lemma Forall_update_first_found (P : Order -> Prop) p f l o :
  find p l = Some o -> P (f o) ->
  Forall P l -> Forall P (Store.update_first p f l).
Proof.
  intros Hfind Hfo. induction 1 as [|x l Hx Hl IH]; simpl; [constructor|].
  simpl in Hfind. destruct (p x).
  - injection Hfind as <-. by constructor.
  - constructor; auto.
Qed.

(** Under the unique [_id] index a stored document is the one its own
    [_id] finds. *)
Lemma find_by_own_id l o :
  NoDup (_id <$> l) -> o ∈ l -> find (Store.by_id (_id o)) l = Some o.
Proof.
  induction l as [|x l IH].
  - intros _ H. by apply elem_of_nil in H.
  - rewrite fmap_cons, NoDup_cons. cbn [find]. intros [Hx Hl] [->|Ho]%elem_of_cons.
    + unfold Store.by_id. by rewrite bool_decide_eq_true_2.
    + unfold Store.by_id at 1. rewrite bool_decide_eq_false_2; [by apply IH|].
      intros E. apply Hx. rewrite E. by apply list_elem_of_fmap_2.
Qed.

End StoreFacts.

(** ** The return trip of the payment provider *)

Section ReturnTrip.

Variable hmac : string -> string -> string.
Variable env : Env.

(** The return trip is verified exactly when the secret is configured,
    [status] is ["PAID"] and [sig] is the HMAC of the stored order code
    and that status. *)
Lemma return_verified_iff (order : Order) (q : ReturnQuery) :
  return_verified hmac env order q = true <->
  exists key,
    PAYOS_CHECKSUM_KEY env = Some key
    /\ q_status q = Some "PAID"
    /\ q_sig q
       = Some (hmac key (JS.template_num (orderCode order) ++ ":" ++ "PAID")).
Proof.
  unfold return_verified, hmac_hex.
  destruct (PAYOS_CHECKSUM_KEY env) as [key|].
  - rewrite andb_true_iff, !bool_decide_eq_true. split.
    + intros [Hs Hsig]. exists key. rewrite Hs in Hsig. by simpl in Hsig.
    + intros (key' & [= <-] & Hs & Hsig). rewrite Hs. by simpl.
  - split; [discriminate | by intros (? & ? & _)].
Qed.

Lemma findById_id (id : ObjectId) (db : DB) (order : Order) :
  Store.findById id db = Some order -> _id order = id.
Proof.
  intros H. apply find_holds in H as [H _].
  unfold Store.by_id in H. by apply bool_decide_eq_true in H.
Qed.

Lemma get_order_success_found (w : World) (id : ObjectId) (q : ReturnQuery)
      (db : DB) (order : Order) :
  Store.findById id db = Some order ->
  get_order_success hmac env w id q db
  = if return_verified hmac env order q
    then (Render "order_status"
            (LOrderStatus (set_paid (now w) order)
                          (Store.populate order db) true),
          Store.updateById id (set_paid (now w)) db)
    else (Render "order_status"
            (LOrderStatus order (Store.populate order db) true), db).
Proof.
  intros H. unfold get_order_success, get_order_success_saving. rewrite H.
  by rewrite (findById_id _ _ _ H).
Qed.

Lemma findById_updateById (id : ObjectId) (f : Order -> Order) (db : DB)
      (order : Order) :
  (forall o, _id (f o) = _id o) ->
  Store.findById id db = Some order ->
  Store.findById id (Store.updateById id f db) = Some (f order).
Proof.
  intros Hf H. unfold Store.findById, Store.updateById. simpl.
  apply find_update_first; [exact H|].
  unfold Store.by_id. apply bool_decide_eq_true.
  rewrite Hf. by apply findById_id with db.
Qed.

(** The return trip on a store that accepts the write. The order is
    marked PAID and [paidAt] is stamped with the current time when the
    query has [status = "PAID"] and [sig] equal to the hex HMAC-SHA256 of
    [`${order.orderCode}:${status}`] under the configured checksum key; in
    every other case, a missing key that makes [createHmac] throw
    included, the store is left as it was. In both cases the response is
    the [order_status] page of the order as it is stored after the
    request. *)
Theorem return_trip_marks_paid_iff_verified
        (w : World) (id : ObjectId) (q : ReturnQuery) (db : DB)
        (order : Order) :
  Store.findById id db = Some order ->
  let verified :=
    exists key,
      PAYOS_CHECKSUM_KEY env = Some key
      /\ q_status q = Some "PAID"
      /\ q_sig q
         = Some (hmac key
                   (JS.template_num (orderCode order) ++ ":" ++ "PAID")) in
  exists (shown : Order) (db' : DB),
    get_order_success hmac env w id q db
    = (Render "order_status"
              (LOrderStatus shown (Store.populate order db) true), db')
    /\ Store.findById id db' = Some shown
    /\ (verified ->
        status shown = PAID /\ paidAt shown = Some (now w)
        /\ shown = set_paid (now w) order
        /\ db' = Store.updateById id (set_paid (now w)) db)
    /\ (~ verified -> shown = order /\ db' = db).
Proof.
  intros Hfind verified.
  rewrite (get_order_success_found w id q db order Hfind).
  destruct (return_verified hmac env order q) eqn:Hv.
  - exists (set_paid (now w) order), (Store.updateById id (set_paid (now w)) db).
    split; [reflexivity|]. split.
    + by apply findById_updateById.
    + split; [done|]. intros Hn. exfalso. apply Hn.
      by apply return_verified_iff.
  - exists order, db. split; [reflexivity|]. split; [exact Hfind|].
    split; [|done]. intros Hyes.
    apply return_verified_iff in Hyes. congruence.
Qed.

(** C2. Two return-trip requests for the same order that differ only in
    the [orderCode] query value recompute the same HMAC, taken over the
    stored order's [orderCode], and produce the same response and the
    same store; and whenever a return trip changes the store, [sig] is
    the HMAC of the stored [orderCode] of the order addressed. *)
Theorem return_trip_independent_of_query_orderCode
        (w : World) (id : ObjectId) (q1 q2 : ReturnQuery) (db : DB) :
  q_status q1 = q_status q2 ->
  q_sig q1 = q_sig q2 ->
  (forall order : Order,
      hmac_hex hmac env (orderCode order) (q_status q1)
      = hmac_hex hmac env (orderCode order) (q_status q2))
  /\ get_order_success hmac env w id q1 db
     = get_order_success hmac env w id q2 db
  /\ (forall order : Order,
        Store.findById id db = Some order ->
        snd (get_order_success hmac env w id q1 db) <> db ->
        exists key,
          PAYOS_CHECKSUM_KEY env = Some key
          /\ q_sig q1
             = Some (hmac key
                       (JS.template_num (orderCode order) ++ ":" ++ "PAID"))).
Proof.
  intros Hs Hsig. split; [by rewrite Hs|]. split.
  - unfold get_order_success, get_order_success_saving, return_verified.
    destruct (Store.findById id db) as [order|]; [|reflexivity].
    by rewrite Hs, Hsig.
  - intros order Hfind Hchanged.
    rewrite (get_order_success_found w id q1 db order Hfind) in Hchanged.
    destruct (return_verified hmac env order q1) eqn:Hv; [|done].
    apply return_verified_iff in Hv as (key & Hk & _ & Hq). eauto.
Qed.

(** The return trip of a stored order, whatever becomes of the save. *)
Lemma get_order_success_saving_found (saved : bool) (w : World)
      (id : ObjectId) (q : ReturnQuery) (db : DB) (order : Order) :
  Store.findById id db = Some order ->
  get_order_success_saving hmac env saved w id q db
  = if return_verified hmac env order q
    then (Render "order_status"
            (LOrderStatus (set_paid (now w) order)
                          (Store.populate order db) true),
          if saved then Store.updateById id (set_paid (now w)) db else db)
    else (Render "order_status"
            (LOrderStatus order (Store.populate order db) true), db).
Proof.
  intros H. unfold get_order_success_saving. rewrite H.
  by rewrite (findById_id _ _ _ H).
Qed.

(** The return trip never fails the request and never writes anything
    but the payment of its order; when it does not write, the page shows
    the stored order on every path but one: a verified request whose save
    rejects is answered with the order as PAID, which the store does not
    have. *)
Lemma return_trip_saving_cases (saved : bool) (w : World) (id : ObjectId)
      (q : ReturnQuery) (db : DB) (order : Order) :
  Store.findById id db = Some order ->
  exists (shown : Order) (db' : DB),
    get_order_success_saving hmac env saved w id q db
    = (Render "order_status"
              (LOrderStatus shown (Store.populate order db) true), db')
    /\ (return_verified hmac env order q = false ->
        shown = order /\ db' = db)
    /\ (return_verified hmac env order q = true -> saved = true ->
        shown = set_paid (now w) order
        /\ db' = Store.updateById id (set_paid (now w)) db
        /\ Store.findById id db' = Some shown)
    /\ (return_verified hmac env order q = true -> saved = false ->
        shown = set_paid (now w) order /\ db' = db
        /\ Store.findById id db' = Some order).
Proof.
  intros Hfind.
  rewrite (get_order_success_saving_found saved w id q db order Hfind).
  destruct (return_verified hmac env order q); [destruct saved|];
    eexists _, _; (split; [reflexivity|]);
    repeat split; try discriminate; try done.
  by apply findById_updateById.
Qed.

End ReturnTrip.

Lemma return_trip_marks_paid_iff_verified_witness :
  Store.findById 1 (Sample.db_of Sample.pending) = Some Sample.pending
  /\ (let verified :=
        exists key,
          PAYOS_CHECKSUM_KEY Sample.env = Some key
          /\ q_status (Sample.return_query "42") = Some "PAID"
          /\ q_sig (Sample.return_query "42")
             = Some (Sample.mac key
                       (JS.template_num (orderCode Sample.pending)
                        ++ ":" ++ "PAID")) in
      exists (shown : Order) (db' : DB),
        get_order_success Sample.mac Sample.env (Sample.world 5000 9) 1
                          (Sample.return_query "42")
                          (Sample.db_of Sample.pending)
        = (Render "order_status"
             (LOrderStatus shown
                (Store.populate Sample.pending (Sample.db_of Sample.pending))
                true), db')
        /\ Store.findById 1 db' = Some shown
        /\ (verified ->
            status shown = PAID /\ paidAt shown = Some (now (Sample.world 5000 9))
            /\ shown = set_paid (now (Sample.world 5000 9)) Sample.pending
            /\ db' = Store.updateById 1 (set_paid (now (Sample.world 5000 9)))
                                      (Sample.db_of Sample.pending))
        /\ (~ verified -> shown = Sample.pending
                          /\ db' = Sample.db_of Sample.pending)).
Proof.
  split; [reflexivity|].
  apply (return_trip_marks_paid_iff_verified Sample.mac Sample.env
           (Sample.world 5000 9) 1 (Sample.return_query "42")
           (Sample.db_of Sample.pending) Sample.pending).
  reflexivity.
Defined.

Lemma return_trip_independent_of_query_orderCode_witness :
  q_status (Sample.return_query "42") = q_status (Sample.return_query "77")
  /\ q_sig (Sample.return_query "42") = q_sig (Sample.return_query "77")
  /\ get_order_success Sample.mac Sample.env (Sample.world 5000 9) 1
       (Sample.return_query "42") (Sample.db_of Sample.pending)
     = get_order_success Sample.mac Sample.env (Sample.world 5000 9) 1
         (Sample.return_query "77") (Sample.db_of Sample.pending).
Proof.
  split; [reflexivity|]. split; [reflexivity|].
  apply (return_trip_independent_of_query_orderCode Sample.mac Sample.env
           (Sample.world 5000 9) 1 (Sample.return_query "42")
           (Sample.return_query "77") (Sample.db_of Sample.pending));
    reflexivity.
Defined.

(** C1, on the code. The claim holds on every path of the return trip
    but one. For the PENDING sample order and its signed return URL, with
    [order.save()] rejecting: the request is verified, so [status] and
    [paidAt] are assigned before the save; the rejection is swallowed, the
    store keeps the order PENDING and without [paidAt], and the page is
    rendered with the order as PAID, not with the persisted state the
    claim and the comment in the [catch] promise. *)
Theorem return_trip_rejected_save_shows_unsaved_paid :
  get_order_success_saving Sample.mac Sample.env false (Sample.world 5000 9) 1
    (Sample.return_query "42") (Sample.db_of Sample.pending)
  = (Render "order_status"
       (LOrderStatus (set_paid 5000 Sample.pending) (Some Sample.item) true),
     Sample.db_of Sample.pending)
  /\ Store.findById 1 (Sample.db_of Sample.pending) = Some Sample.pending
  /\ status Sample.pending = PENDING
  /\ paidAt Sample.pending = None
  /\ status (set_paid 5000 Sample.pending) = PAID
  /\ paidAt (set_paid 5000 Sample.pending) = Some 5000%Z.
Proof. repeat split; vm_compute; reflexivity. Qed.

(** The signed return URL marks the sample order PAID; a wrong signature,
    another status or a missing checksum key leaves it PENDING, and the
    page is rendered all the same. *)
Example return_trip_valid :
  get_order_success Sample.mac Sample.env (Sample.world 5000 9) 1
    (Sample.return_query "42") (Sample.db_of Sample.pending)
  = (Render "order_status"
       (LOrderStatus (set_paid 5000 Sample.pending) (Some Sample.item) true),
     Sample.db_of (set_paid 5000 Sample.pending)).
Proof. vm_compute. reflexivity. Qed.

Example return_trip_bad_signature :
  get_order_success Sample.mac Sample.env (Sample.world 5000 9) 1
    (mkReturnQuery (Some "PAID") (Some "42") (Some "k|43:PAID"))
    (Sample.db_of Sample.pending)
  = (Render "order_status"
       (LOrderStatus Sample.pending (Some Sample.item) true),
     Sample.db_of Sample.pending).
Proof. vm_compute. reflexivity. Qed.

Example return_trip_other_status :
  get_order_success Sample.mac Sample.env (Sample.world 5000 9) 1
    (mkReturnQuery (Some "CANCELLED") (Some "42") (Some "k|42:CANCELLED"))
    (Sample.db_of Sample.pending)
  = (Render "order_status"
       (LOrderStatus Sample.pending (Some Sample.item) true),
     Sample.db_of Sample.pending).
Proof. vm_compute. reflexivity. Qed.

Example return_trip_without_key :
  get_order_success Sample.mac (mkEnv None None None) (Sample.world 5000 9) 1
    (Sample.return_query "42") (Sample.db_of Sample.pending)
  = (Render "order_status"
       (LOrderStatus Sample.pending (Some Sample.item) true),
     Sample.db_of Sample.pending).
Proof. vm_compute. reflexivity. Qed.

(** ** The activation state machine *)

Section Activation.

Implicit Types (w : World) (db : DB) (o : Order).

Lemma truthy_num_Some (n : Z) : n <> 0%Z -> JS.truthy_num (Some n) = true.
Proof. intros H. simpl. by apply negb_true_iff, Z.eqb_neq. Qed.

Lemma truthy_str_Some (s : string) : s <> "" -> JS.truthy_str (Some s) = true.
Proof. intros H. simpl. by apply negb_true_iff, String.eqb_neq. Qed.

Lemma truthy_num_false (v : option Z) :
  JS.truthy_num v = false <-> v = None \/ v = Some 0%Z.
Proof.
  destruct v as [n|]; simpl; [|by intuition].
  rewrite negb_false_iff, Z.eqb_eq. split.
  - intros ->. by right.
  - by intros [|[= ->]].
Qed.

(** What [activate_read] decides for a request that names a stored
    order. *)
Lemma activate_read_found w (r : ActivateReq) db (oc : Z) o :
  a_orderCode r = Some oc -> oc <> 0%Z -> Store.findOne oc db = Some o ->
  activate_read w r db
  = if negb (bool_decide (status o = PAID)) then
      Respond (Json 400 (JError "Order is not PAID"))
    else if is_activated o then
      Respond (Json 409
        (JAlreadyActivated "Order already activated"
           (activation o ≫= activatedAt) (activation o ≫= deviceId)))
    else
      Save o (Store.populate o db)
           (mkActivation true (Some (now w)) (JS.or_null (a_deviceId r))
                         (client_ip r)).
Proof.
  intros Hoc Hnz Hfind. unfold activate_read.
  by rewrite Hoc, (truthy_num_Some oc Hnz), Hfind.
Qed.

(** The first activation of a PAID order. *)
Lemma activate_succeeds w (r : ActivateReq) db (oc : Z) o :
  a_orderCode r = Some oc -> oc <> 0%Z -> Store.findOne oc db = Some o ->
  status o = PAID -> is_activated o = false ->
  post_api_activate w r db
  = (Json 200
       (JActivated "Kích hoạt thành công" (_id o) (orderCode o)
          (JS.or_null (a_deviceId r)) (Some (now w))
          (JS.or_null (driveLink <$> Store.populate o db))),
     Store.updateById (_id o)
       (set_activation
          (Some (mkActivation true (Some (now w))
                   (JS.or_null (a_deviceId r)) (client_ip r)))) db).
Proof.
  intros Hoc Hnz Hfind Hst Hact. unfold post_api_activate.
  rewrite (activate_read_found w r db oc o Hoc Hnz Hfind).
  by rewrite bool_decide_eq_true_2, Hact.
Qed.

Lemma findOne_orderCode (oc : Z) db o :
  Store.findOne oc db = Some o -> orderCode o = oc.
Proof.
  intros H. apply find_holds in H as [H _].
  unfold Store.by_orderCode in H. by apply Z.eqb_eq in H.
Qed.


Lemma validate_found (r : ValidateReq) db (oc : Z) (dev : string) o :
  v_orderCode r = Some oc -> oc <> 0%Z ->
  v_deviceId r = Some dev -> dev <> "" ->
  Store.findOne oc db = Some o ->
  post_api_validate r db
  = if negb (bool_decide (status o = PAID)) then
      (Json 400 (JError "Order is not PAID"), db)
    else if negb (is_activated o) then
      (Json 403 (JError "Order not activated yet"), db)
    else if JS.truthy_str (activation o ≫= deviceId)
            && negb (bool_decide (activation o ≫= deviceId = Some dev))
    then (Json 409 (JError "Device mismatch"), db)
    else (Json 200 JOk, db).
Proof.
  intros Hoc Hnz Hdev Hne Hfind. unfold post_api_validate.
  rewrite Hoc, Hdev, (truthy_num_Some oc Hnz), (truthy_str_Some dev Hne).
  simpl. by rewrite Hfind.
Qed.

(** C4. [POST /api/validate] by cases: a request without [orderCode] or
    without [deviceId] is answered 400; an unknown [orderCode] 404; an
    order that is not PAID 400 "Order is not PAID"; an order that is not
    activated 403; an order bound to another, non-empty device 409;
    every other request 200 [{ok: true}], in particular every request on
    an activated order whose bound [deviceId] is [null] or empty. *)
Theorem validate_case_analysis (r : ValidateReq) db :
  (JS.truthy_num (v_orderCode r) = false
   \/ JS.truthy_str (v_deviceId r) = false ->
   post_api_validate r db
   = (Json 400 (JError "orderCode & deviceId required"), db))
  /\ (forall oc dev, v_orderCode r = Some oc -> oc <> 0%Z ->
      v_deviceId r = Some dev -> dev <> "" ->
      (Store.findOne oc db = None ->
       post_api_validate r db = (Json 404 (JError "Order not found"), db))
      /\ (forall o, Store.findOne oc db = Some o ->
          (status o <> PAID ->
           post_api_validate r db
           = (Json 400 (JError "Order is not PAID"), db))
          /\ (status o = PAID -> is_activated o = false ->
              post_api_validate r db
              = (Json 403 (JError "Order not activated yet"), db))
          /\ (forall bound, status o = PAID -> is_activated o = true ->
              activation o ≫= deviceId = Some bound ->
              bound <> "" -> bound <> dev ->
              post_api_validate r db
              = (Json 409 (JError "Device mismatch"), db))
          /\ (status o = PAID -> is_activated o = true ->
              activation o ≫= deviceId = Some dev ->
              post_api_validate r db = (Json 200 JOk, db))
          /\ (status o = PAID -> is_activated o = true ->
              JS.truthy_str (activation o ≫= deviceId) = false ->
              post_api_validate r db = (Json 200 JOk, db)))).
Proof.
  split.
  - unfold post_api_validate. destruct (v_orderCode r) as [oc|]; [|done].
    intros [H|H]; rewrite H; [done|]. by rewrite orb_true_r.
  - intros oc dev Hoc Hnz Hdev Hne. split.
    + intros Hfind. unfold post_api_validate.
      rewrite Hoc, Hdev, (truthy_num_Some oc Hnz), (truthy_str_Some dev Hne).
      simpl. by rewrite Hfind.
    + intros o Hfind.
      rewrite (validate_found r db oc dev o Hoc Hnz Hdev Hne Hfind).
      repeat split.
      * intros Hst. by rewrite bool_decide_eq_false_2.
      * intros Hst Hact. by rewrite bool_decide_eq_true_2, Hact.
      * intros bound Hst Hact Hb Hbne Hdiff.
        rewrite bool_decide_eq_true_2, Hact, Hb by done. simpl.
        rewrite (proj2 (negb_true_iff _) (proj2 (String.eqb_neq _ _) Hbne)).
        rewrite bool_decide_eq_false_2; [done|]. by intros [= ->].
      * intros Hst Hact Hb.
        rewrite bool_decide_eq_true_2, Hact, Hb by done. simpl.
        rewrite bool_decide_eq_true_2 by done. by rewrite andb_false_r.
      * intros Hst Hact Hb.
        rewrite bool_decide_eq_true_2, Hact, Hb by done. done.
Qed.

Lemma validate_store (r : ValidateReq) db : snd (post_api_validate r db) = db.
Proof.
  unfold post_api_validate.
  destruct (v_orderCode r) as [oc|]; [|reflexivity].
  destruct (negb (JS.truthy_num (Some oc)) || negb (JS.truthy_str (v_deviceId r)));
    [reflexivity|].
  destruct (Store.findOne oc db) as [o|]; [|reflexivity].
  destruct (negb (bool_decide (status o = PAID))); [reflexivity|].
  destruct (negb (is_activated o)); [reflexivity|].
  by destruct (_ && _).
Qed.

(** C6. [POST /api/validate] never writes: whatever the request and
    whatever it answers, the store after it is the store before it, so
    every order keeps its [status], [paidAt] and activation record. *)
Theorem validate_is_read_only (r : ValidateReq) db :
  snd (post_api_validate r db) = db
  /\ (forall id, Store.findById id (snd (post_api_validate r db))
                 = Store.findById id db).
Proof.
  pose proof (validate_store r db) as H.
  split; [exact H|]. intros id. by rewrite H.
Qed.


End Activation.


(** ** Resetting an activation *)

Section Reset.

Variable env : Env.

Implicit Types (w : World) (db : DB) (o : Order).

Lemma findOne_updateOne (oc : Z) (f : Order -> Order) db o :
  (forall x, orderCode (f x) = orderCode x) ->
  Store.findOne oc db = Some o ->
  Store.findOne oc (Store.updateOne oc f db) = Some (f o).
Proof.
  intros Hf H. unfold Store.findOne, Store.updateOne. simpl.
  apply find_update_first; [exact H|].
  unfold Store.by_orderCode. rewrite Hf. apply Z.eqb_eq.
  by apply findOne_orderCode with db.
Qed.

Lemma findOne_updateById (id : ObjectId) (oc : Z) (f : Order -> Order) db o :
  (forall x, orderCode (f x) = orderCode x) ->
  Store.findById id db = Some o -> Store.findOne oc db = Some o ->
  Store.findOne oc (Store.updateById id f db) = Some (f o).
Proof.
  intros Hf Hid Hoc. unfold Store.findOne, Store.updateById. simpl.
  apply find_update_first_other; [exact Hid | exact Hoc |].
  unfold Store.by_orderCode. rewrite Hf. apply Z.eqb_eq.
  by apply findOne_orderCode with db.
Qed.

(** C9, as the code has it. The admin page route replaces the activation
    record of the order by the default one ([isActivated = false], no
    [activatedAt], no [deviceId], no [ip]) whatever it was, and answers
    with the same redirect when the order does not exist. The API route
    answers 401 unless [x-admin-secret] is the configured secret, 400
    without an [orderCode], and otherwise 200 after setting the whole
    activation record of the order to [null]; it answers 200 also when
    no order has that [orderCode]. After either reset of a PAID order,
    [POST /api/activate] for it succeeds. *)
Theorem reset_clears_activation db :
  (forall id,
      fst (post_admin_activation_reset id db) = Redirect (Some "back")
      /\ (Store.findById id db = None ->
          snd (post_admin_activation_reset id db) = db)
      /\ (forall o, Store.findById id db = Some o ->
          Store.findById id (snd (post_admin_activation_reset id db))
          = Some (set_activation (Some default_activation) o)))
  /\ (forall r,
      (r_secret r <> ADMIN_ACTIVATE_SECRET env ->
       post_api_admin_reset_activation env r db
       = (Json 401 (JError "unauthorized"), db))
      /\ (r_secret r = ADMIN_ACTIVATE_SECRET env ->
          JS.truthy_num (r_orderCode r) = false ->
          post_api_admin_reset_activation env r db
          = (Json 400 (JError "orderCode required"), db))
      /\ (forall oc, r_secret r = ADMIN_ACTIVATE_SECRET env ->
          r_orderCode r = Some oc -> oc <> 0%Z ->
          fst (post_api_admin_reset_activation env r db) = Json 200 JOk
          /\ (Store.findOne oc db = None ->
              snd (post_api_admin_reset_activation env r db) = db)
          /\ (forall o, Store.findOne oc db = Some o ->
              Store.findOne oc (snd (post_api_admin_reset_activation env r db))
              = Some (set_activation None o))))
  /\ (forall w (a : ActivateReq) (r : ResetReq) id oc o,
      Store.findById id db = Some o -> Store.findOne oc db = Some o ->
      status o = PAID ->
      a_orderCode a = Some oc -> oc <> 0%Z ->
      r_secret r = ADMIN_ACTIVATE_SECRET env -> r_orderCode r = Some oc ->
      (exists dev t link,
          fst (post_api_activate w a (snd (post_admin_activation_reset id db)))
          = Json 200 (JActivated "Kích hoạt thành công" id oc dev t link))
      /\ (exists dev t link,
          fst (post_api_activate w a
                 (snd (post_api_admin_reset_activation env r db)))
          = Json 200 (JActivated "Kích hoạt thành công" id oc dev t link))).
Proof.
  split; [|split].
  - intros id. split; [reflexivity|]. split.
    + intros H. unfold post_admin_activation_reset, Store.updateById. simpl.
      rewrite update_first_miss by exact H. by destruct db.
    + intros o H. simpl. by apply findById_updateById.
  - intros r. unfold post_api_admin_reset_activation. split; [|split].
    + intros H. by rewrite bool_decide_eq_false_2.
    + intros H [Hn|Hn]%truthy_num_false;
        rewrite bool_decide_eq_true_2, Hn by done; done.
    + intros oc H Hoc Hnz.
      rewrite bool_decide_eq_true_2, Hoc, (truthy_num_Some oc Hnz) by done.
      simpl. split; [reflexivity|]. split.
      * intros Hnone. unfold Store.updateOne.
        rewrite update_first_miss by exact Hnone. by destruct db.
      * intros o Hfind. by apply findOne_updateOne.
  - intros w a r id oc o Hid Hfind Hst Ha Hnz Hsec Hr.
    pose proof (findById_id id db o Hid) as Hido.
    pose proof (findOne_orderCode oc db o Hfind) as Hoco.
    split.
    + assert (Store.findOne oc (snd (post_admin_activation_reset id db))
              = Some (set_activation (Some default_activation) o)) as Hf.
      { simpl. by apply findOne_updateById. }
      rewrite (activate_succeeds w a _ oc _ Ha Hnz Hf Hst eq_refl).
      simpl. rewrite Hido, Hoco. eauto.
    + assert (Store.findOne oc (snd (post_api_admin_reset_activation env r db))
              = Some (set_activation None o)) as Hf.
      { unfold post_api_admin_reset_activation.
        rewrite bool_decide_eq_true_2, Hr, (truthy_num_Some oc Hnz) by done.
        simpl. by apply findOne_updateOne. }
      rewrite (activate_succeeds w a _ oc _ Ha Hnz Hf Hst eq_refl).
      simpl. rewrite Hido, Hoco. eauto.
Qed.

End Reset.

(** The API route leaves [null], not the default record, and has the
    error answer 401. *)
Lemma api_reset_leaves_null :
  Store.findOne 42
    (snd (post_api_admin_reset_activation Sample.env
            (mkResetReq (Some "s3cret") (Some 42%Z))
            (Sample.db_of Sample.activated)))
  = Some (set_activation None Sample.paid)
  /\ activation (set_activation None Sample.paid) <> Some default_activation
  /\ post_api_admin_reset_activation Sample.env
       (mkResetReq (Some "guess") (Some 42%Z)) (Sample.db_of Sample.activated)
     = (Json 401 (JError "unauthorized"), Sample.db_of Sample.activated).
Proof.
  split; [reflexivity|]. split; [discriminate | reflexivity].
Qed.

(** ** Two activations in flight *)

Section Race.

Implicit Types (w : World) (db : DB) (o : Order).

(** Handled one after the other, the first of two activations of a PAID
    order succeeds and the second is refused. *)
Lemma activate_serial_one_wins w1 w2 (r1 r2 : ActivateReq) db (oc : Z) o :
  a_orderCode r1 = Some oc -> a_orderCode r2 = Some oc -> oc <> 0%Z ->
  Store.findOne oc db = Some o -> Store.findById (_id o) db = Some o ->
  status o = PAID -> is_activated o = false ->
  let a1 := mkActivation true (Some (now w1)) (JS.or_null (a_deviceId r1))
                         (client_ip r1) in
  exists link db',
    activate_serial w1 w2 r1 r2 db
    = (Json 200
         (JActivated "Kích hoạt thành công" (_id o) (orderCode o)
            (JS.or_null (a_deviceId r1)) (Some (now w1)) link),
       Json 409
         (JAlreadyActivated "Order already activated" (Some (now w1))
            (JS.or_null (a_deviceId r1))),
       db')
    /\ Store.findById (_id o) db' = Some (set_activation (Some a1) o).
Proof.
  intros H1 H2 Hnz Hfind Hid Hst Hact a1. unfold activate_serial.
  rewrite (activate_succeeds w1 r1 db oc o H1 Hnz Hfind Hst Hact).
  fold a1.
  assert (Store.findOne oc (Store.updateById (_id o) (set_activation (Some a1)) db)
          = Some (set_activation (Some a1) o)) as Hf.
  { by apply findOne_updateById. }
  unfold post_api_activate.
  rewrite (activate_read_found w2 r2 _ oc _ H2 Hnz Hf). simpl.
  rewrite bool_decide_eq_true_2 by exact Hst. simpl.
  eexists _, _. split; [reflexivity|]. by apply findById_updateById.
Qed.

(** When both queries complete before either [save], both activations
    of a PAID order succeed, and the order ends up bound to the device
    of the request that saved last. *)
Lemma activate_interleaved_both_win w1 w2 (r1 r2 : ActivateReq) db (oc : Z) o :
  a_orderCode r1 = Some oc -> a_orderCode r2 = Some oc -> oc <> 0%Z ->
  Store.findOne oc db = Some o -> Store.findById (_id o) db = Some o ->
  status o = PAID -> is_activated o = false ->
  let a2 := mkActivation true (Some (now w2)) (JS.or_null (a_deviceId r2))
                         (client_ip r2) in
  exists link db',
    activate_interleaved w1 w2 r1 r2 db
    = (Json 200
         (JActivated "Kích hoạt thành công" (_id o) (orderCode o)
            (JS.or_null (a_deviceId r1)) (Some (now w1)) link),
       Json 200
         (JActivated "Kích hoạt thành công" (_id o) (orderCode o)
            (JS.or_null (a_deviceId r2)) (Some (now w2)) link),
       db')
    /\ Store.findById (_id o) db' = Some (set_activation (Some a2) o).
Proof.
  intros H1 H2 Hnz Hfind Hid Hst Hact a2. unfold activate_interleaved.
  rewrite (activate_read_found w1 r1 db oc o H1 Hnz Hfind).
  rewrite (activate_read_found w2 r2 db oc o H2 Hnz Hfind).
  rewrite bool_decide_eq_true_2, Hact by exact Hst. simpl.
  eexists _, _. split; [reflexivity|].
  set (a1 := mkActivation _ _ _ (client_ip r1)).
  assert (Store.findById (_id o)
            (Store.updateById (_id o) (set_activation (Some a1)) db)
          = Some (set_activation (Some a1) o)) as Hf.
  { by apply findById_updateById. }
  apply (findById_updateById (_id o) (set_activation (Some a2)) _ _
           (fun _ => eq_refl) Hf).
Qed.

(** C5, as the code has it. Of two [POST /api/activate] requests for the
    same PAID, never activated order that are handled one after the
    other, the first succeeds and the second is answered 409 with the
    activation of the first. The handler reads the order and saves it in
    two steps, not in one conditional update: when both requests have
    read before either saves, both succeed, and the order stays bound to
    the device saved last. *)
Theorem activate_twice_serial_or_interleaved
        w1 w2 (r1 r2 : ActivateReq) db (oc : Z) o :
  a_orderCode r1 = Some oc -> a_orderCode r2 = Some oc -> oc <> 0%Z ->
  Store.findOne oc db = Some o -> Store.findById (_id o) db = Some o ->
  status o = PAID -> is_activated o = false ->
  (exists link db',
      activate_serial w1 w2 r1 r2 db
      = (Json 200
           (JActivated "Kích hoạt thành công" (_id o) (orderCode o)
              (JS.or_null (a_deviceId r1)) (Some (now w1)) link),
         Json 409
           (JAlreadyActivated "Order already activated" (Some (now w1))
              (JS.or_null (a_deviceId r1))),
         db')
      /\ Store.findById (_id o) db'
         = Some (set_activation
                   (Some (mkActivation true (Some (now w1))
                            (JS.or_null (a_deviceId r1)) (client_ip r1))) o))
  /\ (exists link db',
      activate_interleaved w1 w2 r1 r2 db
      = (Json 200
           (JActivated "Kích hoạt thành công" (_id o) (orderCode o)
              (JS.or_null (a_deviceId r1)) (Some (now w1)) link),
         Json 200
           (JActivated "Kích hoạt thành công" (_id o) (orderCode o)
              (JS.or_null (a_deviceId r2)) (Some (now w2)) link),
         db')
      /\ Store.findById (_id o) db'
         = Some (set_activation
                   (Some (mkActivation true (Some (now w2))
                            (JS.or_null (a_deviceId r2)) (client_ip r2))) o)).
Proof.
  intros H1 H2 Hnz Hfind Hid Hst Hact. split.
  - exact (activate_serial_one_wins w1 w2 r1 r2 db oc o
             H1 H2 Hnz Hfind Hid Hst Hact).
  - exact (activate_interleaved_both_win w1 w2 r1 r2 db oc o
             H1 H2 Hnz Hfind Hid Hst Hact).
Qed.

End Race.

Lemma activate_twice_serial_or_interleaved_witness :
  a_orderCode (Sample.activate_from "D1") = Some 42%Z
  /\ a_orderCode (Sample.activate_from "D2") = Some 42%Z
  /\ 42%Z <> 0%Z
  /\ Store.findOne 42 (Sample.db_of Sample.paid) = Some Sample.paid
  /\ Store.findById (_id Sample.paid) (Sample.db_of Sample.paid)
     = Some Sample.paid
  /\ status Sample.paid = PAID
  /\ is_activated Sample.paid = false
  /\ exists link db',
      activate_interleaved (Sample.world 3000 9) (Sample.world 3001 9)
        (Sample.activate_from "D1") (Sample.activate_from "D2")
        (Sample.db_of Sample.paid)
      = (Json 200
           (JActivated "Kích hoạt thành công" 1 42 (Some "D1") (Some 3000%Z)
              link),
         Json 200
           (JActivated "Kích hoạt thành công" 1 42 (Some "D2") (Some 3001%Z)
              link),
         db')
      /\ Store.findById 1 db'
         = Some (set_activation
                   (Some (mkActivation true (Some 3001%Z) (Some "D2")
                            (Some "10.0.0.9"))) Sample.paid).
Proof.
  split; [reflexivity|]. split; [reflexivity|]. split; [lia|].
  do 4 (split; [reflexivity|]).
  exact (proj2 (activate_twice_serial_or_interleaved
                  (Sample.world 3000 9) (Sample.world 3001 9)
                  (Sample.activate_from "D1") (Sample.activate_from "D2")
                  (Sample.db_of Sample.paid) 42 Sample.paid
                  eq_refl eq_refl ltac:(lia) eq_refl eq_refl eq_refl eq_refl)).
Defined.

(** Two [POST /api/activate] requests for the PAID, never activated sample
    order, from devices D1 and D2: when the second request is read while
    the first awaits its [save], both are answered 200 with the
    [driveLink] and the order ends up bound to D2; only when the first has
    finished before the second starts is the second answered 409. *)
Lemma concurrent_activations_both_succeed :
  activate_interleaved (Sample.world 3000 9) (Sample.world 3001 9)
    (Sample.activate_from "D1") (Sample.activate_from "D2")
    (Sample.db_of Sample.paid)
  = (Json 200
       (JActivated "Kích hoạt thành công" 1 42 (Some "D1") (Some 3000%Z)
          (Some "https://drive/abc")),
     Json 200
       (JActivated "Kích hoạt thành công" 1 42 (Some "D2") (Some 3001%Z)
          (Some "https://drive/abc")),
     Sample.db_of
       (set_activation
          (Some (mkActivation true (Some 3001%Z) (Some "D2") (Some "10.0.0.9")))
          Sample.paid))
  /\ activate_serial (Sample.world 3000 9) (Sample.world 3001 9)
       (Sample.activate_from "D1") (Sample.activate_from "D2")
       (Sample.db_of Sample.paid)
     = (Json 200
          (JActivated "Kích hoạt thành công" 1 42 (Some "D1") (Some 3000%Z)
             (Some "https://drive/abc")),
        Json 409
          (JAlreadyActivated "Order already activated" (Some 3000%Z)
             (Some "D1")),
        Sample.db_of
          (set_activation
             (Some (mkActivation true (Some 3000%Z) (Some "D1")
                      (Some "10.0.0.9")))
             Sample.paid)).
Proof. split; vm_compute; reflexivity. Qed.

(** ** The life of an order across requests *)

Section Lifecycle.

Variable hmac : string -> string -> string.
Variable env : Env.

Implicit Types (w : World) (db : DB) (o : Order).

Lemma with_codes_same db : with_codes (codes db) db = db.
Proof. by destruct db. Qed.

Lemma quiet_write_refl db : quiet_write db db.
Proof. rewrite <- (with_codes_same db) at 2. constructor. Qed.

Lemma create_fresh o db db1 :
  Store.create o db = Some db1 ->
  db1 = with_orders (orders db ++ [o]) db /\ _id o ∉ (_id <$> orders db).
Proof.
  unfold Store.create.
  destruct (existsb _ (orders db)) eqn:E; [discriminate|].
  intros [= <-]. split; [reflexivity|].
  revert E. generalize (orders db). intros l.
  induction l as [|x l IH]; [intros _; apply not_elem_of_nil|].
  cbn [existsb]. rewrite fmap_cons, orb_false_iff, not_elem_of_cons.
  intros [Hx Hl]. split; [|by apply IH].
  apply orb_false_iff in Hx as [Hx _]. unfold Store.by_id in Hx.
  apply bool_decide_eq_false in Hx. congruence.
Qed.

Lemma post_order_writes w (f : OrderForm) db :
  quiet_write db (snd (post_order hmac env w f db)).
Proof.
  unfold post_order.
  destruct (codes db !! f_codeId f) as [c|]; [|apply quiet_write_refl].
  set (order := mkOrder _ _ _ _ _ _ _ _ _ _ _).
  destruct (Store.create order db) as [db1|] eqn:Hc; [|apply quiet_write_refl].
  apply create_fresh in Hc as [-> Hfresh].
  assert (quiet_write db (with_orders (orders db ++ [order]) db)) as H1
      by (by constructor).
  destruct (hmac_hex hmac env (now w) (Some "PAID")); [|exact H1].
  destruct (payos_create w _); [|exact H1].
  eapply write_then; [exact H1|]. apply write_payment_link.
Qed.

Lemma activate_writes w (r : ActivateReq) db :
  quiet_write db (snd (post_api_activate w r db)).
Proof.
  unfold post_api_activate, activate_read.
  destruct (a_orderCode r) as [oc|]; [|apply quiet_write_refl].
  destruct (negb (JS.truthy_num (Some oc))); [apply quiet_write_refl|].
  destruct (Store.findOne oc db) as [o|] eqn:Hfind; [|apply quiet_write_refl].
  destruct (bool_decide (status o = PAID)) eqn:Hst; [|apply quiet_write_refl].
  destruct (is_activated o); [apply quiet_write_refl|]. simpl.
  apply bool_decide_eq_true in Hst. apply find_holds in Hfind as [_ Hin].
  by apply write_activate.
Qed.

(** Every request either marks its target PAID at the current time or
    makes a quiet write. *)
Lemma handle_writes w (req : Request) db :
  match paid_target hmac env req db with
  | Some id =>
      snd (handle hmac env w req db)
      = Store.updateById id (set_paid (now w)) db
  | None => quiet_write db (snd (handle hmac env w req db))
  end.
Proof.
  destruct req as [f|id q|id|id|a c|a id c|a id|a id|a id|r|r|r]; simpl.
  - apply post_order_writes.
  - unfold get_order_success, get_order_success_saving.
    destruct (Store.findById id db) as [o|] eqn:Hfind;
      [|apply quiet_write_refl].
    destruct (return_verified hmac env o q); [|apply quiet_write_refl].
    simpl. by rewrite (findById_id id db o Hfind).
  - unfold get_order_cancel.
    destruct (Store.findById id db); apply quiet_write_refl.
  - unfold get_api_order.
    destruct (Store.findById id db); apply quiet_write_refl.
  - destruct a; simpl; [|apply quiet_write_refl].
    unfold post_admin_codes.
    destruct (codes db !! newObjectId w);
      [apply quiet_write_refl | apply write_none].
  - destruct a; simpl; [|apply quiet_write_refl].
    destruct (codes db !! id); [apply write_none | apply quiet_write_refl].
  - destruct a; simpl; [apply write_none | apply quiet_write_refl].
  - destruct a; simpl; [reflexivity | apply quiet_write_refl].
  - destruct a; simpl; [|apply quiet_write_refl].
    by apply (write_deactivate db (Store.by_id id)).
  - apply activate_writes.
  - unfold post_api_admin_reset_activation.
    destruct (negb (bool_decide _)); [apply quiet_write_refl|].
    destruct (r_orderCode r) as [oc|]; [|apply quiet_write_refl].
    destruct (negb (JS.truthy_num (Some oc))); [apply quiet_write_refl|].
    by apply (write_deactivate db (Store.by_orderCode oc)).
  - rewrite (validate_store r db). apply quiet_write_refl.
Qed.

(** *** Activated orders are PAID *)

Lemma quiet_write_ledger_ok db db' :
  quiet_write db db' -> ledger_ok db -> ledger_ok db'.
Proof.
  induction 1 as [db cs|db o Hfresh Hst Hpaid Hact|db id pl url|db p a Ha
                 |db o a Hin Hst|db db1 db2 _ IH1 _ IH2]; intros [Hnd Hall].
  - done.
  - split; simpl.
    + rewrite fmap_app. apply NoDup_app. split; [done|]. split.
      * intros x Hx [->|[]%elem_of_nil]%elem_of_cons. done.
      * apply NoDup_singleton.
    + apply Forall_app. split; [done|]. constructor; [|constructor].
      unfold activated_only_if_paid, is_activated. by rewrite Hact.
  - split; simpl.
    + by rewrite update_first_ids.
    + by apply Forall_update_first.
  - split; simpl.
    + by rewrite update_first_ids.
    + apply Forall_update_first; [|done].
      intros x _. unfold activated_only_if_paid. by rewrite Ha.
  - split; simpl.
    + by rewrite update_first_ids.
    + apply Forall_update_first_found with o; [by apply find_by_own_id| |done].
      intros _. exact Hst.
  - apply IH2, IH1. by split.
Qed.

Lemma handle_ledger_ok w (req : Request) db :
  ledger_ok db -> ledger_ok (snd (handle hmac env w req db)).
Proof.
  intros Hok. pose proof (handle_writes w req db) as H.
  destruct (paid_target hmac env req db) as [id|].
  - rewrite H. destruct Hok as [Hnd Hall]. split; simpl.
    + by rewrite update_first_ids.
    + apply Forall_update_first; [|done]. by intros x _ _.
  - by apply quiet_write_ledger_ok with db.
Qed.

Lemma run_ledger_ok (reqs : list (World * Request)) db :
  ledger_ok db -> ledger_ok (run hmac env reqs db).
Proof.
  revert db. induction reqs as [|[w req] reqs IH]; intros db Hok; [done|].
  simpl. by apply IH, handle_ledger_ok.
Qed.

(** C8. In every store reached from the empty one by a sequence of
    requests (order creation, return trips, catalogue and order actions
    of the admin, activations, validations, resets by either route), an
    order whose activation has [isActivated = true] has status PAID. *)
Theorem activated_implies_paid (reqs : list (World * Request)) o :
  o ∈ orders (run hmac env reqs empty_db) ->
  is_activated o = true ->
  status o = PAID.
Proof.
  intros Hin.
  assert (ledger_ok empty_db) as H0 by (split; constructor).
  destruct (run_ledger_ok reqs empty_db H0) as [_ Hall].
  rewrite Forall_forall in Hall. by apply Hall.
Qed.

(** *** When [paidAt] is written *)

Lemma keeps_paid_update p (f : Order -> Order) db :
  (forall x, _id (f x) = _id x) ->
  (forall x, paidAt (f x) = paidAt x /\ status (f x) = status x) ->
  keeps_paid db (with_orders (Store.update_first p f (orders db)) db).
Proof.
  intros Hid Hf id o Hfind. unfold Store.findById in *. simpl.
  destruct (find_update_first_keeps p (Store.by_id id) f (orders db) o)
    as [H|H]; [|exact Hfind| |].
  - intros x. unfold Store.by_id. by rewrite Hid.
  - exists o. by rewrite H.
  - exists (f o). rewrite H. split; [reflexivity | apply Hf].
Qed.

Lemma quiet_write_keeps_paid db db' : quiet_write db db' -> keeps_paid db db'.
Proof.
  induction 1 as [db cs|db o Hfresh Hst Hpaid Hact|db id pl url|db p a Ha
                 |db o a Hin Hst|db db1 db2 _ IH1 _ IH2].
  - intros id o Hfind. exists o. by split.
  - intros id x Hfind. exists x. split; [|done].
    unfold Store.findById in *. simpl. by apply find_app_found.
  - by apply keeps_paid_update.
  - by apply keeps_paid_update.
  - by apply keeps_paid_update.
  - intros id o Hfind.
    destruct (IH1 id o Hfind) as (o1 & H1 & Hp1 & Hs1).
    destruct (IH2 id o1 H1) as (o2 & H2 & Hp2 & Hs2).
    exists o2. split; [exact H2|]. split; congruence.
Qed.

(** C7, as the code has it. A verified return trip and the admin's
    mark-paid action write [paidAt = now] on their order every time, also
    when the order is PAID already and [paidAt] was set before; every
    other request, and every request for another order, leaves the
    [paidAt] and the [status] of a stored order as they were. *)
Theorem paidAt_written_by_every_paid_marking w (req : Request) db
        (id : ObjectId) o :
  Store.findById id db = Some o ->
  exists o',
    Store.findById id (snd (handle hmac env w req db)) = Some o'
    /\ (paid_target hmac env req db = Some id ->
        o' = set_paid (now w) o /\ paidAt o' = Some (now w)
        /\ status o' = PAID)
    /\ (paid_target hmac env req db <> Some id ->
        paidAt o' = paidAt o /\ status o' = status o).
Proof.
  intros Hfind. pose proof (handle_writes w req db) as H.
  destruct (paid_target hmac env req db) as [id'|].
  - rewrite H. destruct (decide (id' = id)) as [->|Hne].
    + exists (set_paid (now w) o). split; [by apply findById_updateById|].
      split; [done|]. by intros [].
    + exists o. split; [|split; [by intros [= ->] | done]].
      unfold Store.findById, Store.updateById in *. simpl.
      rewrite find_update_first_disjoint; [exact Hfind|].
      intros x Hx. unfold Store.by_id in *. apply bool_decide_eq_true in Hx.
      simpl. rewrite Hx. by rewrite bool_decide_eq_false_2.
  - destruct (quiet_write_keeps_paid _ _ H id o Hfind) as (o' & Ho' & Hk).
    exists o'. split; [exact Ho'|]. split; [discriminate | by intros _].
Qed.

End Lifecycle.

Lemma paidAt_written_by_every_paid_marking_witness :
  Store.findById 1 (Sample.db_of Sample.paid) = Some Sample.paid
  /\ exists o',
      Store.findById 1
        (snd (handle Sample.mac Sample.env (Sample.world 5000 9)
                (GetOrderSuccess 1 (Sample.return_query "42"))
                (Sample.db_of Sample.paid))) = Some o'
      /\ (paid_target Sample.mac Sample.env
            (GetOrderSuccess 1 (Sample.return_query "42"))
            (Sample.db_of Sample.paid) = Some 1%positive ->
          o' = set_paid (now (Sample.world 5000 9)) Sample.paid
          /\ paidAt o' = Some (now (Sample.world 5000 9))
          /\ status o' = PAID)
      /\ (paid_target Sample.mac Sample.env
            (GetOrderSuccess 1 (Sample.return_query "42"))
            (Sample.db_of Sample.paid) <> Some 1%positive ->
          paidAt o' = paidAt Sample.paid /\ status o' = status Sample.paid).
Proof.
  split; [reflexivity|].
  apply (paidAt_written_by_every_paid_marking Sample.mac Sample.env
           (Sample.world 5000 9)
           (GetOrderSuccess 1 (Sample.return_query "42"))
           (Sample.db_of Sample.paid) 1 Sample.paid).
  reflexivity.
Defined.

(** The sample order was PAID at 1000. Replaying its signed return URL at
    5000, or the admin's mark-paid at 6000, replaces the stored [paidAt]. *)
Lemma paidAt_overwritten :
  status Sample.paid = PAID
  /\ paidAt <$> Store.findById 1 (Sample.db_of Sample.paid)
     = Some (Some 1000%Z)
  /\ paidAt <$> Store.findById 1
                  (snd (handle Sample.mac Sample.env (Sample.world 5000 9)
                          (GetOrderSuccess 1 (Sample.return_query "42"))
                          (Sample.db_of Sample.paid)))
     = Some (Some 5000%Z)
  /\ paidAt <$> Store.findById 1
                  (snd (handle Sample.mac Sample.env (Sample.world 6000 9)
                          (PostAdminMarkPaid true 1)
                          (Sample.db_of Sample.paid)))
     = Some (Some 6000%Z).
Proof. repeat split; vm_compute; reflexivity. Qed.

Lemma activated_implies_paid_witness :
  Sample.purchased ∈ orders (run Sample.mac Sample.env Sample.session empty_db)
  /\ is_activated Sample.purchased = true
  /\ status Sample.purchased = PAID.
Proof.
  assert (Sample.purchased
          ∈ orders (run Sample.mac Sample.env Sample.session empty_db)) as Hin.
  { apply list_elem_of_singleton. vm_compute. reflexivity. }
  split; [exact Hin|]. split; [reflexivity|].
  apply (activated_implies_paid Sample.mac Sample.env Sample.session
           Sample.purchased Hin).
  reflexivity.
Defined.

(** ** The handlers on the sample shop *)

Example activate_pending_refused :
  post_api_activate (Sample.world 3000 9) (Sample.activate_from "D1")
    (Sample.db_of Sample.pending)
  = (Json 400 (JError "Order is not PAID"), Sample.db_of Sample.pending).
Proof. vm_compute. reflexivity. Qed.

Example activate_zero_orderCode :
  post_api_activate (Sample.world 3000 9)
    (mkActivateReq (Some 0%Z) (Some "D1") HAbsent None None)
    (Sample.db_of Sample.paid)
  = (Json 400 (JError "orderCode is required"), Sample.db_of Sample.paid).
Proof. vm_compute. reflexivity. Qed.

Example activate_twice_refused :
  post_api_activate (Sample.world 3000 9) (Sample.activate_from "D2")
    (Sample.db_of Sample.activated)
  = (Json 409
       (JAlreadyActivated "Order already activated" (Some 2000%Z) (Some "D1")),
     Sample.db_of Sample.activated).
Proof. vm_compute. reflexivity. Qed.

Example activate_without_device :
  post_api_activate (Sample.world 3000 9)
    (mkActivateReq (Some 42%Z) None (HString "203.0.113.5") (Some "10.0.0.9")
                   None)
    (Sample.db_of Sample.paid)
  = (Json 200
       (JActivated "Kích hoạt thành công" 1 42 None (Some 3000%Z)
          (Some "https://drive/abc")),
     Sample.db_of
       (set_activation
          (Some (mkActivation true (Some 3000%Z) None (Some "203.0.113.5")))
          Sample.paid)).
Proof. vm_compute. reflexivity. Qed.

Example validate_same_device :
  post_api_validate (mkValidateReq (Some 42%Z) (Some "D1"))
    (Sample.db_of Sample.activated)
  = (Json 200 JOk, Sample.db_of Sample.activated).
Proof. vm_compute. reflexivity. Qed.

Example validate_other_device :
  post_api_validate (mkValidateReq (Some 42%Z) (Some "D2"))
    (Sample.db_of Sample.activated)
  = (Json 409 (JError "Device mismatch"), Sample.db_of Sample.activated).
Proof. vm_compute. reflexivity. Qed.

Example validate_before_activation :
  post_api_validate (mkValidateReq (Some 42%Z) (Some "D1"))
    (Sample.db_of Sample.paid)
  = (Json 403 (JError "Order not activated yet"), Sample.db_of Sample.paid).
Proof. vm_compute. reflexivity. Qed.

Example validate_unbound_accepts_any_device :
  fst (post_api_validate (mkValidateReq (Some 42%Z) (Some "D2"))
         (snd (post_api_activate (Sample.world 3000 9)
                 (mkActivateReq (Some 42%Z) None HAbsent None None)
                 (Sample.db_of Sample.paid))))
  = Json 200 JOk.
Proof. vm_compute. reflexivity. Qed.

Example reset_by_admin_page_then_activate :
  fst (post_api_activate (Sample.world 3000 9) (Sample.activate_from "D2")
         (snd (post_admin_activation_reset 1 (Sample.db_of Sample.activated))))
  = Json 200
      (JActivated "Kích hoạt thành công" 1 42 (Some "D2") (Some 3000%Z)
         (Some "https://drive/abc")).
Proof. vm_compute. reflexivity. Qed.

Example reset_by_api_then_activate :
  fst (post_api_activate (Sample.world 3000 9) (Sample.activate_from "D2")
         (snd (post_api_admin_reset_activation Sample.env
                 (mkResetReq (Some "s3cret") (Some 42%Z))
                 (Sample.db_of Sample.activated))))
  = Json 200
      (JActivated "Kích hoạt thành công" 1 42 (Some "D2") (Some 3000%Z)
         (Some "https://drive/abc")).
Proof. vm_compute. reflexivity. Qed.

(** From the listing to the activation: the order is created PENDING,
    the signed return trip marks it PAID, the activation binds D1. *)
Example session_result :
  run Sample.mac Sample.env Sample.session empty_db
  = Sample.db_of Sample.purchased.
Proof. vm_compute. reflexivity. Qed.

Example session_before_return_trip :
  status <$> Store.findById 1
               (run Sample.mac Sample.env (take 2 Sample.session) empty_db)
  = Some PENDING.
Proof. vm_compute. reflexivity. Qed.

(** ** What each route writes *)

Section RouteEffects.

Variable hmac : string -> string -> string.
Variable env : Env.

Implicit Types (w : World) (db : DB) (o : Order) (l : list Order).

Lemma existsb_find_none (p : Order -> bool) l :
  existsb p l = false <-> find p l = None.
Proof.
  induction l as [|x l IH]; simpl; [done|].
  destruct (p x); simpl; [split; discriminate | exact IH].
Qed.

Lemma find_none_not_in_ids (id : ObjectId) l :
  find (Store.by_id id) l = None <-> id ∉ (_id <$> l).
Proof.
  induction l as [|x l IH].
  - split; [intros _; apply not_elem_of_nil | done].
  - cbn [find]. rewrite fmap_cons, not_elem_of_cons. unfold Store.by_id at 1.
    destruct (decide (_id x = id)) as [E|E].
    + rewrite bool_decide_eq_true_2 by done. split; [discriminate|].
      intros [H _]. by destruct H.
    + rewrite bool_decide_eq_false_2 by done. rewrite IH. split.
      * intros H. split; [congruence | done].
      * by intros [_ H].
Qed.

Lemma find_none_not_in_orderCodes (oc : Z) l :
  find (Store.by_orderCode oc) l = None <-> oc ∉ (orderCode <$> l).
Proof.
  induction l as [|x l IH].
  - split; [intros _; apply not_elem_of_nil | done].
  - cbn [find]. rewrite fmap_cons, not_elem_of_cons. unfold Store.by_orderCode at 1.
    destruct (Z.eqb_spec (orderCode x) oc) as [E|E].
    + split; [discriminate|]. intros [H _]. by destruct H.
    + rewrite IH. split.
      * intros H. split; [congruence | done].
      * by intros [_ H].
Qed.

(** [Order.create] succeeds exactly when both keys are free. *)
Lemma create_iff_keys_free o db :
  (keys_free (_id o) (orderCode o) db ->
   Store.create o db = Some (with_orders (orders db ++ [o]) db))
  /\ (forall db1, Store.create o db = Some db1 ->
      keys_free (_id o) (orderCode o) db
      /\ db1 = with_orders (orders db ++ [o]) db).
Proof.
  unfold Store.create, keys_free, Store.findById, Store.findOne.
  set (p := fun o' => Store.by_id (_id o) o' || Store.by_orderCode (orderCode o) o').
  assert (existsb p (orders db) = false
          <-> find (Store.by_id (_id o)) (orders db) = None
              /\ find (Store.by_orderCode (orderCode o)) (orders db) = None) as H.
  { generalize (orders db). intros l. induction l as [|x l IH]; simpl; [done|].
    unfold p at 1.
    destruct (Store.by_id (_id o) x), (Store.by_orderCode (orderCode o) x);
      simpl; try (split; [discriminate | by intros [? ?]]).
    exact IH. }
  split.
  - intros Hfree. apply H in Hfree. by rewrite Hfree.
  - intros db1. destruct (existsb p (orders db)) eqn:E; [discriminate|].
    intros [= <-]. split; [by apply H | reflexivity].
Qed.

Lemma post_order_kind w (f : OrderForm) db :
  handler_write db KCreate (snd (post_order hmac env w f db)).
Proof.
  unfold post_order.
  destruct (codes db !! f_codeId f) as [c|]; [|apply hw_same].
  set (order := mkOrder _ _ _ _ _ _ _ _ _ _ _).
  destruct (Store.create order db) as [db1|] eqn:Hc; [|apply hw_same].
  apply create_iff_keys_free in Hc as [[Hid Hoc] ->].
  assert (handler_write db KCreate (with_orders (orders db ++ [order]) db))
    as H1.
  { apply hw_create; try done.
    - by apply find_none_not_in_ids.
    - by apply find_none_not_in_orderCodes. }
  destruct (hmac_hex hmac env (now w) (Some "PAID")); [|exact H1].
  destruct (payos_create w _); [|exact H1].
  eapply hw_then; [exact H1|]. apply hw_link.
Qed.

Lemma activate_kind w (r : ActivateReq) db :
  handler_write db KActivate (snd (post_api_activate w r db)).
Proof.
  unfold post_api_activate, activate_read.
  destruct (a_orderCode r) as [oc|]; [|apply hw_same].
  destruct (negb (JS.truthy_num (Some oc))); [apply hw_same|].
  destruct (Store.findOne oc db) as [o|] eqn:Hfind; [|apply hw_same].
  destruct (bool_decide (status o = PAID)) eqn:Hst; [|apply hw_same].
  destruct (is_activated o) eqn:Hact; [apply hw_same|]. simpl.
  apply bool_decide_eq_true in Hst. apply find_holds in Hfind as [_ Hin].
  by apply hw_activate.
Qed.

(** Every route writes within its kind. *)
Lemma handle_kind w (req : Request) db :
  handler_write db (request_kind req) (snd (handle hmac env w req db)).
Proof.
  destruct req as [f|id q|id|id|a c|a id c|a id|a id|a id|r|r|r]; simpl.
  - apply post_order_kind.
  - unfold get_order_success, get_order_success_saving.
    destruct (Store.findById id db) as [o|]; [|apply hw_same].
    destruct (return_verified hmac env o q); [apply hw_paid | apply hw_same].
  - unfold get_order_cancel. destruct (Store.findById id db); apply hw_same.
  - unfold get_api_order. destruct (Store.findById id db); apply hw_same.
  - destruct a; simpl; [|apply hw_same]. unfold post_admin_codes.
    destruct (codes db !! newObjectId w); [apply hw_same | apply hw_catalogue].
  - destruct a; simpl; [|apply hw_same].
    destruct (codes db !! id); [apply hw_catalogue | apply hw_same].
  - destruct a; simpl; [apply hw_catalogue | apply hw_same].
  - destruct a; simpl; [apply hw_paid | apply hw_same].
  - destruct a; simpl; [|apply hw_same].
    by apply (hw_reset db (Store.by_id id)).
  - apply activate_kind.
  - unfold post_api_admin_reset_activation.
    destruct (negb (bool_decide _)); [apply hw_same|].
    destruct (r_orderCode r) as [oc|]; [|apply hw_same].
    destruct (negb (JS.truthy_num (Some oc))); [apply hw_same|].
    by apply (hw_reset db (Store.by_orderCode oc)).
  - rewrite (validate_store r db). apply hw_same.
Qed.

Lemma update_first_fmap {B} (g : Order -> B) (p : Order -> bool)
      (f : Order -> Order) l :
  (forall x, g (f x) = g x) ->
  g <$> Store.update_first p f l = g <$> l.
Proof.
  intros Hf. induction l as [|x l IH]; [reflexivity|].
  cbn [Store.update_first]. destruct (p x); rewrite !fmap_cons.
  - by rewrite Hf.
  - by rewrite IH.
Qed.

Lemma evolves_refl o : evolves o o.
Proof. by repeat split. Qed.

Lemma evolves_trans o1 o2 o3 : evolves o1 o2 -> evolves o2 o3 -> evolves o1 o3.
Proof.
  intros (? & ? & ? & ? & ? & ? & ?) (? & ? & ? & ? & ? & ? & ?).
  repeat split; try congruence. auto.
Qed.

Lemma evolves_update (p : Order -> bool) (f : Order -> Order) db id o :
  (forall x, evolves x (f x)) ->
  Store.findById id db = Some o ->
  exists o',
    Store.findById id (with_orders (Store.update_first p f (orders db)) db)
    = Some o' /\ evolves o o'.
Proof.
  intros Hf Hfind. unfold Store.findById in *. simpl.
  destruct (find_update_first_keeps p (Store.by_id id) f (orders db) o)
    as [H|H]; [|exact Hfind| |].
  - intros x. unfold Store.by_id. by rewrite (proj1 (Hf x)).
  - exists o. split; [exact H | apply evolves_refl].
  - exists (f o). split; [exact H | apply Hf].
Qed.

Lemma handler_write_evolves db k db' :
  handler_write db k db' ->
  forall id o, Store.findById id db = Some o ->
    exists o', Store.findById id db' = Some o' /\ evolves o o'.
Proof.
  induction 1 as [db k|db cs|db x Hid Hoc Hst Hact|db id' pl url|db id' t
                 |db p a Ha|db x a Hin Hst Hact|db k db1 db2 _ IH1 _ IH2];
    intros id o Hfind.
  - exists o. split; [exact Hfind | apply evolves_refl].
  - exists o. split; [exact Hfind | apply evolves_refl].
  - exists o. split; [|apply evolves_refl].
    unfold Store.findById in *. simpl. by apply find_app_found.
  - apply evolves_update; [|exact Hfind]. intros y. by repeat split.
  - apply evolves_update; [|exact Hfind]. intros y. by repeat split.
  - apply evolves_update; [|exact Hfind]. intros y. by repeat split.
  - apply evolves_update; [|exact Hfind]. intros y. by repeat split.
  - destruct (IH1 id o Hfind) as (o1 & H1 & E1).
    destruct (IH2 id o1 H1) as (o2 & H2 & E2).
    exists o2. split; [exact H2 | by apply evolves_trans with o1].
Qed.

Lemma unique_keys_update (p : Order -> bool) (f : Order -> Order) db :
  (forall x, _id (f x) = _id x) -> (forall x, orderCode (f x) = orderCode x) ->
  unique_keys db ->
  unique_keys (with_orders (Store.update_first p f (orders db)) db).
Proof.
  intros H1 H2 [Hid Hoc]. split; simpl; by rewrite update_first_fmap.
Qed.

Lemma handler_write_unique db k db' :
  handler_write db k db' -> unique_keys db -> unique_keys db'.
Proof.
  induction 1 as [db k|db cs|db x Hid Hoc Hst Hact|db id' pl url|db id' t
                 |db p a Ha|db x a Hin Hst Hact|db k db1 db2 _ IH1 _ IH2];
    intros Hu; try (by apply unique_keys_update); try done.
  - destruct Hu as [Hu1 Hu2]. split; simpl; rewrite fmap_app.
    + apply NoDup_app. split; [done|]. split; [|apply NoDup_singleton].
      intros y Hy [->|[]%elem_of_nil]%elem_of_cons. done.
    + apply NoDup_app. split; [done|]. split; [|apply NoDup_singleton].
      intros y Hy [->|[]%elem_of_nil]%elem_of_cons. done.
  - auto.
Qed.

(** Under the unique [orderCode] index a stored order is the one its own
    [orderCode] finds. *)
Lemma find_by_own_orderCode l o :
  NoDup (orderCode <$> l) -> o ∈ l ->
  find (Store.by_orderCode (orderCode o)) l = Some o.
Proof.
  induction l as [|x l IH].
  - intros _ H. by apply elem_of_nil in H.
  - rewrite fmap_cons, NoDup_cons. cbn [find].
    intros [Hx Hl] [->|Ho]%elem_of_cons.
    + unfold Store.by_orderCode. by rewrite Z.eqb_refl.
    + unfold Store.by_orderCode at 1.
      destruct (Z.eqb_spec (orderCode x) (orderCode o)) as [E|E];
        [|by apply IH].
      exfalso. apply Hx. rewrite E. by apply list_elem_of_fmap_2.
Qed.

Lemma lookups_agree db :
  unique_keys db ->
  (forall oc o, Store.findOne oc db = Some o ->
                Store.findById (_id o) db = Some o)
  /\ (forall id o, Store.findById id db = Some o ->
                   Store.findOne (orderCode o) db = Some o).
Proof.
  intros [Hid Hoc]. split.
  - intros oc o [_ Hin]%find_holds. by apply find_by_own_id.
  - intros id o [_ Hin]%find_holds. by apply find_by_own_orderCode.
Qed.

Lemma handler_write_binding db k db' :
  handler_write db k db' -> k <> KReset -> unique_keys db ->
  forall id o, Store.findById id db = Some o -> is_activated o = true ->
    exists o', Store.findById id db' = Some o'
               /\ activation o' = activation o.
Proof.
  induction 1 as [db k|db cs|db x Hid Hoc Hst Hact|db id' pl url|db id' t
                 |db p a Ha|db x a Hin Hst Hact|db k db1 db2 Hw1 IH1 _ IH2];
    intros Hk Hu id o Hfind Hon.
  - by exists o.
  - by exists o.
  - exists o. split; [|done].
    unfold Store.findById in *. simpl. by apply find_app_found.
  - unfold Store.findById, Store.updateById in *. simpl in *.
    destruct (find_update_first_keeps (Store.by_id id') (Store.by_id id)
                (set_payment_link pl url) (orders db) o) as [H|H];
      [done|exact Hfind| |]; eexists; (split; [exact H | done]).
  - unfold Store.findById, Store.updateById in *. simpl in *.
    destruct (find_update_first_keeps (Store.by_id id') (Store.by_id id)
                (set_paid t) (orders db) o) as [H|H];
      [done|exact Hfind| |]; eexists; (split; [exact H | done]).
  - done.
  - exists o. split; [|done].
    assert (_id x <> id) as Hne.
    { intros <-. destruct Hu as [Hu _]. unfold Store.findById in Hfind.
      rewrite (find_by_own_id (orders db) x Hu Hin) in Hfind.
      injection Hfind as <-. congruence. }
    unfold Store.findById, Store.updateById in *. simpl.
    rewrite find_update_first_disjoint; [exact Hfind|].
    intros y Hy. unfold Store.by_id in *. apply bool_decide_eq_true in Hy.
    simpl. rewrite Hy. by rewrite bool_decide_eq_false_2.
  - destruct (IH1 Hk Hu id o Hfind Hon) as (o1 & H1 & A1).
    assert (is_activated o1 = true) as Hon1.
    { unfold is_activated in *. by rewrite A1. }
    destruct (IH2 Hk (handler_write_unique _ _ _ Hw1 Hu) id o1 H1 Hon1)
      as (o2 & H2 & A2).
    exists o2. split; [exact H2 | congruence].
Qed.

Lemma handler_write_codes db k db' :
  handler_write db k db' -> k <> KCatalogue -> codes db' = codes db.
Proof.
  induction 1; intros Hk; try done.
  rewrite IHhandler_write2, IHhandler_write1; done.
Qed.

Lemma handler_write_orders db k db' :
  handler_write db k db' -> k = KNone \/ k = KCatalogue ->
  orders db' = orders db.
Proof.
  induction 1; intros Hk; try done; try (by destruct Hk).
  rewrite IHhandler_write2, IHhandler_write1; done.
Qed.

Lemma run_evolves (reqs : list (World * Request)) db id o :
  Store.findById id db = Some o ->
  exists o', Store.findById id (run hmac env reqs db) = Some o' /\ evolves o o'.
Proof.
  revert db o. induction reqs as [|[w req] reqs IH]; intros db o Hfind.
  - exists o. split; [exact Hfind | apply evolves_refl].
  - simpl.
    destruct (handler_write_evolves _ _ _ (handle_kind w req db) id o Hfind)
      as (o1 & H1 & E1).
    destruct (IH _ o1 H1) as (o2 & H2 & E2).
    exists o2. split; [exact H2 | by apply evolves_trans with o1].
Qed.

Lemma run_unique (reqs : list (World * Request)) db :
  unique_keys db -> unique_keys (run hmac env reqs db).
Proof.
  revert db. induction reqs as [|[w req] reqs IH]; intros db Hu; [done|].
  simpl. apply IH.
  exact (handler_write_unique _ _ _ (handle_kind w req db) Hu).
Qed.

(** X1. No sequence of requests removes an order or changes its
    [orderCode], [amount], catalogue reference or buyer: the amount is the
    price at order time, whatever the admin does to the item later. *)
Theorem order_identity_survives_every_request
        (reqs : list (World * Request)) db (id : ObjectId) o :
  Store.findById id db = Some o ->
  exists o',
    Store.findById id (run hmac env reqs db) = Some o'
    /\ orderCode o' = orderCode o /\ amount o' = amount o
    /\ code o' = code o /\ buyerName o' = buyerName o
    /\ buyerEmail o' = buyerEmail o.
Proof.
  intros Hfind.
  destruct (run_evolves reqs db id o Hfind)
    as (o' & H & _ & ? & ? & ? & ? & ? & _).
  exists o'. by repeat split.
Qed.

(** X2. The status of an order never goes back from PAID: after any
    sequence of requests a PAID order is still stored and still PAID. *)
Theorem paid_order_stays_paid
        (reqs : list (World * Request)) db (id : ObjectId) o :
  Store.findById id db = Some o -> status o = PAID ->
  exists o',
    Store.findById id (run hmac env reqs db) = Some o' /\ status o' = PAID.
Proof.
  intros Hfind Hst.
  destruct (run_evolves reqs db id o Hfind)
    as (o' & H & _ & _ & _ & _ & _ & _ & Hpaid).
  exists o'. split; [exact H | by apply Hpaid].
Qed.

(** X3. In every store reached from the empty one, no two orders share
    an [_id] or an [orderCode], so the lookup by [orderCode] of the
    activation API and the lookup by [_id] of the pages find the same
    order. *)
Theorem reachable_store_has_unique_keys (reqs : list (World * Request)) :
  NoDup (_id <$> orders (run hmac env reqs empty_db))
  /\ NoDup (orderCode <$> orders (run hmac env reqs empty_db))
  /\ (forall oc o,
        Store.findOne oc (run hmac env reqs empty_db) = Some o ->
        Store.findById (_id o) (run hmac env reqs empty_db) = Some o)
  /\ (forall id o,
        Store.findById id (run hmac env reqs empty_db) = Some o ->
        Store.findOne (orderCode o) (run hmac env reqs empty_db) = Some o).
Proof.
  assert (unique_keys empty_db) as H0 by (split; constructor).
  pose proof (run_unique reqs empty_db H0) as Hu.
  destruct (lookups_agree _ Hu) as [H1 H2]. destruct Hu as [Hid Hoc].
  done.
Qed.

Lemma run_binding (reqs : list (World * Request)) db id o :
  unique_keys db ->
  Forall (fun wr => request_kind wr.2 <> KReset) reqs ->
  Store.findById id db = Some o -> is_activated o = true ->
  exists o', Store.findById id (run hmac env reqs db) = Some o'
             /\ activation o' = activation o.
Proof.
  revert db o. induction reqs as [|[w req] reqs IH];
    intros db o Hu Hall Hfind Hon.
  - by exists o.
  - apply Forall_cons in Hall as [Hk Hall]. simpl in Hk. simpl.
    destruct (handler_write_binding _ _ _ (handle_kind w req db) Hk Hu
                id o Hfind Hon) as (o1 & H1 & A1).
    assert (is_activated o1 = true) as Hon1.
    { unfold is_activated in *. by rewrite A1. }
    destruct (IH _ o1 (handler_write_unique _ _ _ (handle_kind w req db) Hu)
                Hall H1 Hon1) as (o2 & H2 & A2).
    exists o2. split; [exact H2 | congruence].
Qed.

(** X4. Without a reset in between, the activation of a PAID order
    survives every sequence of requests unchanged: the order stays bound
    to the same device, and a later [POST /api/activate] for it is
    answered 409 with the first activation and writes nothing. *)
Theorem device_binding_survives_without_reset
        (reqs : list (World * Request)) db (id : ObjectId) o :
  unique_keys db ->
  Forall (fun wr => request_kind wr.2 <> KReset) reqs ->
  Store.findById id db = Some o ->
  status o = PAID -> is_activated o = true -> orderCode o <> 0%Z ->
  exists o',
    Store.findById id (run hmac env reqs db) = Some o'
    /\ activation o' = activation o
    /\ forall w (r : ActivateReq),
        a_orderCode r = Some (orderCode o) ->
        post_api_activate w r (run hmac env reqs db)
        = (Json 409
             (JAlreadyActivated "Order already activated"
                (activation o ≫= activatedAt) (activation o ≫= deviceId)),
           run hmac env reqs db).
Proof.
  intros Hu Hall Hfind Hst Hon Hnz.
  destruct (run_binding reqs db id o Hu Hall Hfind Hon) as (o' & H' & A').
  destruct (run_evolves reqs db id o Hfind)
    as (o2 & H2 & _ & Hoc & _ & _ & _ & _ & Hpaid).
  assert (o2 = o') as -> by congruence.
  exists o'. split; [exact H'|]. split; [exact A'|].
  intros w r Hr.
  pose proof (proj2 (lookups_agree _ (run_unique reqs db Hu)) id o' H') as Hone.
  rewrite Hoc in Hone. unfold post_api_activate.
  rewrite (activate_read_found w r _ (orderCode o) o' Hr Hnz Hone).
  rewrite bool_decide_eq_true_2 by (by apply Hpaid).
  unfold is_activated in *. rewrite A'. rewrite Hon. simpl. reflexivity.
Qed.

(** X5. The routes keep to their part of the store. Only the admin's
    catalogue routes, once authorized, change the catalogue; they and the
    reading routes (cancel page, status API, license check, refused admin
    requests) leave every order as it is; and the reading routes change
    nothing at all. *)
Theorem routes_write_within_their_kind w (req : Request) db :
  (request_kind req <> KCatalogue ->
   codes (snd (handle hmac env w req db)) = codes db)
  /\ (request_kind req = KNone \/ request_kind req = KCatalogue ->
      orders (snd (handle hmac env w req db)) = orders db)
  /\ (request_kind req = KNone -> snd (handle hmac env w req db) = db).
Proof.
  pose proof (handle_kind w req db) as H. split; [|split].
  - by apply handler_write_codes.
  - by apply handler_write_orders.
  - intros Hk.
    assert (codes (snd (handle hmac env w req db)) = codes db) as Hc.
    { apply (handler_write_codes _ _ _ H). by rewrite Hk. }
    assert (orders (snd (handle hmac env w req db)) = orders db) as Ho.
    { apply (handler_write_orders _ _ _ H). by left. }
    destruct (snd (handle hmac env w req db)), db. simpl in *. congruence.
Qed.

End RouteEffects.

Lemma order_identity_survives_every_request_witness :
  Store.findById 12 Scenario.shop = Some Scenario.second
  /\ exists o',
      Store.findById 12 (run Sample.mac Scenario.env Scenario.day Scenario.shop)
      = Some o'
      /\ orderCode o' = orderCode Scenario.second
      /\ amount o' = amount Scenario.second
      /\ code o' = code Scenario.second
      /\ buyerName o' = buyerName Scenario.second
      /\ buyerEmail o' = buyerEmail Scenario.second.
Proof.
  split; [reflexivity|].
  apply (order_identity_survives_every_request Sample.mac Scenario.env
           Scenario.day Scenario.shop 12 Scenario.second).
  reflexivity.
Defined.

Lemma paid_order_stays_paid_witness :
  Store.findById 11 Scenario.shop = Some Scenario.first
  /\ status Scenario.first = PAID
  /\ exists o',
      Store.findById 11 (run Sample.mac Scenario.env Scenario.day Scenario.shop)
      = Some o' /\ status o' = PAID.
Proof.
  split; [reflexivity|]. split; [reflexivity|].
  apply (paid_order_stays_paid Sample.mac Scenario.env Scenario.day
           Scenario.shop 11 Scenario.first); reflexivity.
Defined.

Lemma scenario_unique_keys : unique_keys Scenario.shop.
Proof. split; apply (bool_decide_unpack _); vm_compute; exact I. Defined.

Lemma scenario_day_without_reset :
  Forall (fun wr : World * Request => request_kind wr.2 <> KReset) Scenario.day.
Proof. repeat (apply Forall_cons_2; [discriminate|]). apply Forall_nil_2. Defined.

Lemma device_binding_survives_without_reset_witness :
  unique_keys Scenario.shop
  /\ Forall (fun wr : World * Request => request_kind wr.2 <> KReset)
            Scenario.day
  /\ Store.findById 11 Scenario.shop = Some Scenario.first
  /\ status Scenario.first = PAID
  /\ is_activated Scenario.first = true
  /\ orderCode Scenario.first <> 0%Z
  /\ exists o',
      Store.findById 11 (run Sample.mac Scenario.env Scenario.day Scenario.shop)
      = Some o'
      /\ activation o' = activation Scenario.first
      /\ forall w (r : ActivateReq),
          a_orderCode r = Some (orderCode Scenario.first) ->
          post_api_activate w r
            (run Sample.mac Scenario.env Scenario.day Scenario.shop)
          = (Json 409
               (JAlreadyActivated "Order already activated"
                  (activation Scenario.first ≫= activatedAt)
                  (activation Scenario.first ≫= deviceId)),
             run Sample.mac Scenario.env Scenario.day Scenario.shop).
Proof.
  split; [exact scenario_unique_keys|].
  split; [exact scenario_day_without_reset|].
  do 3 (split; [reflexivity|]). split; [discriminate|].
  apply (device_binding_survives_without_reset Sample.mac Scenario.env
           Scenario.day Scenario.shop 11 Scenario.first
           scenario_unique_keys scenario_day_without_reset);
    [reflexivity | reflexivity | reflexivity | discriminate].
Defined.

(** The day of the second shop: the new order and the open one are both
    there at its end, the open one PAID by the admin and bound to the
    desk, the first still bound to the laptop. *)
Example scenario_day_result :
  (fun o => (_id o, status o, amount o, activation o ≫= deviceId))
    <$> orders (run Sample.mac Scenario.env Scenario.day Scenario.shop)
  = [ (11%positive, PAID, 250000%Z, Some "laptop");
      (12%positive, PAID, 250000%Z, Some "desk");
      (13%positive, PENDING, 250000%Z, None) ].
Proof. vm_compute. reflexivity. Qed.

(** ** Creating an order *)

Section OrderCreation.

Variable hmac : string -> string -> string.
Variable env : Env.

Implicit Types (w : World) (db : DB) (o : Order) (l : list Order)
         (f : OrderForm) (c : SourceCode).

Lemma find_app_last (p : Order -> bool) l o :
  find p l = None -> p o = true -> find p (l ++ [o])%list = Some o.
Proof.
  induction l as [|x l IH]; simpl.
  - intros _ ->. reflexivity.
  - destruct (p x); [discriminate | exact IH].
Qed.

Lemma update_first_app_last (p : Order -> bool) (g : Order -> Order) l o :
  find p l = None -> p o = true ->
  Store.update_first p g (l ++ [o])%list = (l ++ [g o])%list.
Proof.
  induction l as [|x l IH]; simpl.
  - intros _ ->. reflexivity.
  - destruct (p x); [discriminate|]. intros H1 H2. by rewrite IH.
Qed.

(** [POST /order] up to the call of the provider, when the item exists,
    the keys are free and the checksum key is configured. *)
Lemma post_order_reaches_provider w f db c (key : string) :
  codes db !! f_codeId f = Some c ->
  keys_free (newObjectId w) (now w) db ->
  PAYOS_CHECKSUM_KEY env = Some key ->
  post_order hmac env w f db
  = match payos_create w (checkout_request hmac key (BASE_URL env) w f c) with
    | Some pl =>
        (Redirect (link_url pl),
         with_orders
           (orders db ++ [new_order w f c (link_id pl) (link_url pl)]) db)
    | None =>
        (Send 500 "Không tạo được đơn / link thanh toán.",
         with_orders (orders db ++ [new_order w f c None None]) db)
    end.
Proof.
  intros Hc Hfree Hkey. unfold post_order. rewrite Hc. cbv zeta.
  change (Store.create _ db) with (Store.create (new_order w f c None None) db).
  rewrite (proj1 (create_iff_keys_free (new_order w f c None None) db) Hfree).
  unfold hmac_hex. rewrite Hkey.
  change (payos_create w _)
    with (payos_create w (checkout_request hmac key (BASE_URL env) w f c)).
  destruct (payos_create w _) as [pl|]; [|reflexivity].
  f_equal. unfold Store.updateById, with_orders. simpl. f_equal.
  destruct Hfree as [Hid _]. apply update_first_app_last; [exact Hid|].
  unfold Store.by_id. by apply bool_decide_eq_true.
Qed.

Lemma find_new_order w f db c (pl url : option string) :
  keys_free (newObjectId w) (now w) db ->
  Store.findById (newObjectId w)
    (with_orders (orders db ++ [new_order w f c pl url]) db)
  = Some (new_order w f c pl url)
  /\ Store.findOne (now w)
       (with_orders (orders db ++ [new_order w f c pl url]) db)
     = Some (new_order w f c pl url).
Proof.
  intros [Hid Hoc]. unfold Store.findById, Store.findOne. simpl. split.
  - apply find_app_last; [exact Hid|].
    unfold Store.by_id. by apply bool_decide_eq_true.
  - apply find_app_last; [exact Hoc|].
    unfold Store.by_orderCode. simpl. apply Z.eqb_refl.
Qed.

(** X6. When the item exists, no order has the new [_id] or the current
    millisecond as [orderCode], the checksum key is configured and the
    provider answers, [POST /order] redirects to the checkout URL and has
    stored one new order: PENDING, not activated, with [orderCode =
    Date.now()], the price of the item at that moment as [amount], and
    the provider's link (taken from [data] when the top-level fields are
    empty). Both lookups find it. *)
Theorem order_created_pending_with_price_snapshot
        w f db c (key : string) (pl : PaymentLink) :
  codes db !! f_codeId f = Some c ->
  keys_free (newObjectId w) (now w) db ->
  PAYOS_CHECKSUM_KEY env = Some key ->
  payos_create w (checkout_request hmac key (BASE_URL env) w f c) = Some pl ->
  post_order hmac env w f db
  = (Redirect (link_url pl),
     with_orders
       (orders db ++ [new_order w f c (link_id pl) (link_url pl)]) db)
  /\ Store.findById (newObjectId w) (snd (post_order hmac env w f db))
     = Some (new_order w f c (link_id pl) (link_url pl))
  /\ Store.findOne (now w) (snd (post_order hmac env w f db))
     = Some (new_order w f c (link_id pl) (link_url pl))
  /\ status (new_order w f c (link_id pl) (link_url pl)) = PENDING
  /\ amount (new_order w f c (link_id pl) (link_url pl)) = priceVND c
  /\ is_activated (new_order w f c (link_id pl) (link_url pl)) = false.
Proof.
  intros Hc Hfree Hkey Hpay.
  rewrite (post_order_reaches_provider w f db c key Hc Hfree Hkey), Hpay.
  split; [reflexivity|]. simpl.
  destruct (find_new_order w f db c (link_id pl) (link_url pl) Hfree).
  done.
Qed.

(** X7. When the checksum key is missing or the call of the provider
    throws, [POST /order] answers 500, but the order it created before is
    not taken back: it stays in the store, PENDING and without checkout
    URL. *)
Theorem failed_checkout_leaves_pending_order w f db c :
  codes db !! f_codeId f = Some c ->
  keys_free (newObjectId w) (now w) db ->
  PAYOS_CHECKSUM_KEY env = None
  \/ (exists key,
        PAYOS_CHECKSUM_KEY env = Some key
        /\ payos_create w (checkout_request hmac key (BASE_URL env) w f c)
           = None) ->
  post_order hmac env w f db
  = (Send 500 "Không tạo được đơn / link thanh toán.",
     with_orders (orders db ++ [new_order w f c None None]) db)
  /\ Store.findById (newObjectId w) (snd (post_order hmac env w f db))
     = Some (new_order w f c None None)
  /\ status (new_order w f c None None) = PENDING
  /\ checkoutUrl (new_order w f c None None) = None.
Proof.
  intros Hc Hfree Hfail.
  assert (post_order hmac env w f db
          = (Send 500 "Không tạo được đơn / link thanh toán.",
             with_orders (orders db ++ [new_order w f c None None]) db)) as H.
  { destruct Hfail as [Hkey|(key & Hkey & Hpay)].
    - unfold post_order. rewrite Hc. cbv zeta.
      change (Store.create _ db)
        with (Store.create (new_order w f c None None) db).
      rewrite (proj1 (create_iff_keys_free (new_order w f c None None) db)
                 Hfree).
      unfold hmac_hex. by rewrite Hkey.
    - by rewrite (post_order_reaches_provider w f db c key Hc Hfree Hkey),
           Hpay. }
  rewrite H. split; [reflexivity|]. simpl.
  destruct (find_new_order w f db c None None Hfree). done.
Qed.

(** X8. [POST /order] creates nothing for an item that is not in the
    catalogue (404), nor when an order already has the current
    millisecond as [orderCode] or the generated [_id] (500): the store is
    left as it was. *)
Theorem order_not_created_for_unknown_item_or_taken_key w f db :
  (codes db !! f_codeId f = None ->
   post_order hmac env w f db = (Send 404 "Code not found", db))
  /\ (forall c o,
        codes db !! f_codeId f = Some c ->
        Store.findOne (now w) db = Some o
        \/ Store.findById (newObjectId w) db = Some o ->
        post_order hmac env w f db
        = (Send 500 "Không tạo được đơn / link thanh toán.", db)).
Proof.
  split.
  - intros Hc. unfold post_order. by rewrite Hc.
  - intros c o Hc Htaken. unfold post_order. rewrite Hc. cbv zeta.
    change (Store.create _ db)
      with (Store.create (new_order w f c None None) db).
    destruct (Store.create (new_order w f c None None) db) as [db1|] eqn:E;
      [|reflexivity].
    apply create_iff_keys_free in E as [[Hid Hoc] _]. simpl in Hid, Hoc.
    destruct Htaken; congruence.
Qed.

(** X9. The signature [POST /order] puts into the return URL is the one
    the return trip accepts for the order it created: a request
    [GET /order/:id/success] with [status=PAID] and that [sig], whatever
    its [orderCode] parameter, marks the new order PAID at the time of
    the return. *)
Theorem signed_return_url_marks_the_new_order_paid
        w w' f db c (key : string) (pl : PaymentLink) (x : option string) :
  codes db !! f_codeId f = Some c ->
  keys_free (newObjectId w) (now w) db ->
  PAYOS_CHECKSUM_KEY env = Some key ->
  payos_create w (checkout_request hmac key (BASE_URL env) w f c) = Some pl ->
  get_order_success hmac env w' (newObjectId w)
    (mkReturnQuery (Some "PAID") x (Some (return_signature hmac key (now w))))
    (snd (post_order hmac env w f db))
  = (Render "order_status"
       (LOrderStatus
          (set_paid (now w') (new_order w f c (link_id pl) (link_url pl)))
          (Some c) true),
     with_orders
       (orders db
        ++ [set_paid (now w') (new_order w f c (link_id pl) (link_url pl))])
       db).
Proof.
  intros Hc Hfree Hkey Hpay.
  rewrite (post_order_reaches_provider w f db c key Hc Hfree Hkey), Hpay.
  simpl.
  destruct (find_new_order w f db c (link_id pl) (link_url pl) Hfree)
    as [Hfind _].
  rewrite (get_order_success_found hmac env w' _ _ _ _ Hfind).
  assert (return_verified hmac env
            (new_order w f c (link_id pl) (link_url pl))
            (mkReturnQuery (Some "PAID") x
               (Some (return_signature hmac key (now w)))) = true) as ->.
  { apply return_verified_iff. exists key. by repeat split. }
  f_equal.
  - f_equal. f_equal. unfold Store.populate. simpl. exact Hc.
  - unfold Store.updateById, with_orders. simpl. f_equal.
    destruct Hfree as [Hid _]. apply update_first_app_last; [exact Hid|].
    unfold Store.by_id. by apply bool_decide_eq_true.
Qed.

End OrderCreation.

Lemma scenario_keys_free : keys_free 13 1700000100000 Scenario.shop.
Proof. split; reflexivity. Defined.

Lemma order_created_pending_with_price_snapshot_witness :
  codes Scenario.shop !! f_codeId Scenario.form = Some Scenario.theme
  /\ keys_free 13 1700000100000 Scenario.shop
  /\ PAYOS_CHECKSUM_KEY Scenario.env = Some "checksum"
  /\ payos_create (Scenario.world 1700000100000 13)
       (checkout_request Sample.mac "checksum" (BASE_URL Scenario.env)
          (Scenario.world 1700000100000 13) Scenario.form Scenario.theme)
     = Some (mkPaymentLink None None
               (Some (Some "pl-new", Some "https://pay/new")))
  /\ fst (post_order Sample.mac Scenario.env (Scenario.world 1700000100000 13)
            Scenario.form Scenario.shop)
     = Redirect (Some "https://pay/new").
Proof.
  split; [reflexivity|]. split; [exact scenario_keys_free|].
  split; [reflexivity|]. split; [reflexivity|].
  exact (f_equal fst
           (proj1 (order_created_pending_with_price_snapshot
                     Sample.mac Scenario.env
                     (Scenario.world 1700000100000 13) Scenario.form
                     Scenario.shop Scenario.theme "checksum" _
                     eq_refl scenario_keys_free eq_refl eq_refl))).
Defined.

Lemma failed_checkout_leaves_pending_order_witness :
  codes Scenario.shop !! f_codeId Scenario.form = Some Scenario.theme
  /\ keys_free 13 1700000100000 Scenario.shop
  /\ (exists key,
        PAYOS_CHECKSUM_KEY Scenario.env = Some key
        /\ payos_create (Scenario.offline 1700000100000 13)
             (checkout_request Sample.mac key (BASE_URL Scenario.env)
                (Scenario.offline 1700000100000 13) Scenario.form
                Scenario.theme) = None)
  /\ Store.findById 13
       (snd (post_order Sample.mac Scenario.env
               (Scenario.offline 1700000100000 13) Scenario.form
               Scenario.shop))
     = Some (new_order (Scenario.offline 1700000100000 13) Scenario.form
               Scenario.theme None None).
Proof.
  assert (exists key,
             PAYOS_CHECKSUM_KEY Scenario.env = Some key
             /\ payos_create (Scenario.offline 1700000100000 13)
                  (checkout_request Sample.mac key (BASE_URL Scenario.env)
                     (Scenario.offline 1700000100000 13) Scenario.form
                     Scenario.theme) = None) as Hfail.
  { exists "checksum". split; reflexivity. }
  split; [reflexivity|]. split; [exact scenario_keys_free|].
  split; [exact Hfail|].
  exact (proj1 (proj2 (failed_checkout_leaves_pending_order
                         Sample.mac Scenario.env
                         (Scenario.offline 1700000100000 13) Scenario.form
                         Scenario.shop Scenario.theme
                         eq_refl scenario_keys_free (or_intror Hfail)))).
Defined.

Lemma signed_return_url_marks_the_new_order_paid_witness :
  codes Scenario.shop !! f_codeId Scenario.form = Some Scenario.theme
  /\ keys_free 13 1700000100000 Scenario.shop
  /\ PAYOS_CHECKSUM_KEY Scenario.env = Some "checksum"
  /\ payos_create (Scenario.world 1700000100000 13)
       (checkout_request Sample.mac "checksum" (BASE_URL Scenario.env)
          (Scenario.world 1700000100000 13) Scenario.form Scenario.theme)
     = Some (mkPaymentLink None None
               (Some (Some "pl-new", Some "https://pay/new")))
  /\ (status <$> Store.findById 13
         (snd (get_order_success Sample.mac Scenario.env
                 (Scenario.world 1700000900000 14) 13
                 (mkReturnQuery (Some "PAID") None
                    (Some (return_signature Sample.mac "checksum"
                             1700000100000)))
                 (snd (post_order Sample.mac Scenario.env
                         (Scenario.world 1700000100000 13) Scenario.form
                         Scenario.shop)))))
     = Some PAID.
Proof.
  split; [reflexivity|]. split; [exact scenario_keys_free|].
  split; [reflexivity|]. split; [reflexivity|].
  exact (f_equal (fun r => status <$> Store.findById 13 (snd r))
           (signed_return_url_marks_the_new_order_paid
              Sample.mac Scenario.env (Scenario.world 1700000100000 13)
              (Scenario.world 1700000900000 14) Scenario.form Scenario.shop
              Scenario.theme "checksum" _ None
              eq_refl scenario_keys_free eq_refl eq_refl)).
Defined.

(** ** From payment to license checks *)

Section LicenseFlow.

Variable env : Env.

Implicit Types (w : World) (db : DB) (o : Order).

Lemma or_null_nonempty (d : string) : d <> "" -> JS.or_null (Some d) = Some d.
Proof. intros H. unfold JS.or_null. by rewrite (truthy_str_Some d H). Qed.

Lemma findOne_after_activate w (r : ActivateReq) db (oc : Z) o :
  a_orderCode r = Some oc -> oc <> 0%Z ->
  Store.findOne oc db = Some o -> Store.findById (_id o) db = Some o ->
  status o = PAID -> is_activated o = false ->
  Store.findOne oc (snd (post_api_activate w r db))
  = Some (set_activation
            (Some (mkActivation true (Some (now w))
                     (JS.or_null (a_deviceId r)) (client_ip r))) o).
Proof.
  intros Hr Hnz Hone Hid Hst Hact.
  rewrite (activate_succeeds w r db oc o Hr Hnz Hone Hst Hact). simpl.
  by apply findOne_updateById.
Qed.

(** X10. After the first activation of a PAID order with a device id, a
    license check with that device id is answered 200 [{ok: true}] and a
    check with any other device id 409 "Device mismatch". *)
Theorem activate_then_validate
        w (r : ActivateReq) db (oc : Z) o (d : string) :
  a_orderCode r = Some oc -> oc <> 0%Z ->
  a_deviceId r = Some d -> d <> "" ->
  Store.findOne oc db = Some o -> Store.findById (_id o) db = Some o ->
  status o = PAID -> is_activated o = false ->
  post_api_validate (mkValidateReq (Some oc) (Some d))
                    (snd (post_api_activate w r db))
  = (Json 200 JOk, snd (post_api_activate w r db))
  /\ forall d' : string, d' <> "" -> d' <> d ->
       post_api_validate (mkValidateReq (Some oc) (Some d'))
                         (snd (post_api_activate w r db))
       = (Json 409 (JError "Device mismatch"),
          snd (post_api_activate w r db)).
Proof.
  intros Hr Hnz Hd Hne Hone Hid Hst Hact.
  pose proof (findOne_after_activate w r db oc o Hr Hnz Hone Hid Hst Hact)
    as Hf.
  rewrite Hd, (or_null_nonempty d Hne) in Hf. split.
  - rewrite (validate_found (mkValidateReq (Some oc) (Some d)) _ oc d _ eq_refl Hnz eq_refl Hne Hf). simpl.
    rewrite bool_decide_eq_true_2 by exact Hst. simpl.
    rewrite bool_decide_eq_true_2 by reflexivity.
    by rewrite andb_false_r.
  - intros d' Hne' Hdiff.
    rewrite (validate_found (mkValidateReq (Some oc) (Some d')) _ oc d' _ eq_refl Hnz eq_refl Hne' Hf). simpl.
    rewrite bool_decide_eq_true_2 by exact Hst. simpl.
    rewrite (proj2 (negb_true_iff _) (proj2 (String.eqb_neq _ _) Hne)).
    rewrite bool_decide_eq_false_2; [reflexivity|]. by intros [= ->].
Qed.

(** X11. An activation sent without a device id, or with an empty one,
    binds no device: the answer and the stored activation have [deviceId]
    [null], and afterwards a license check is answered 200 for every
    device id. *)
Theorem activate_without_device_then_validate
        w (r : ActivateReq) db (oc : Z) o :
  a_orderCode r = Some oc -> oc <> 0%Z ->
  JS.truthy_str (a_deviceId r) = false ->
  Store.findOne oc db = Some o -> Store.findById (_id o) db = Some o ->
  status o = PAID -> is_activated o = false ->
  post_api_activate w r db
  = (Json 200
       (JActivated "Kích hoạt thành công" (_id o) (orderCode o) None
          (Some (now w)) (JS.or_null (driveLink <$> Store.populate o db))),
     Store.updateById (_id o)
       (set_activation
          (Some (mkActivation true (Some (now w)) None (client_ip r)))) db)
  /\ Store.findOne oc (snd (post_api_activate w r db))
     = Some (set_activation
               (Some (mkActivation true (Some (now w)) None (client_ip r))) o)
  /\ forall d' : string, d' <> "" ->
       post_api_validate (mkValidateReq (Some oc) (Some d'))
                         (snd (post_api_activate w r db))
       = (Json 200 JOk, snd (post_api_activate w r db)).
Proof.
  intros Hr Hnz Hd Hone Hid Hst Hact.
  pose proof (findOne_after_activate w r db oc o Hr Hnz Hone Hid Hst Hact)
    as Hf.
  pose proof (activate_succeeds w r db oc o Hr Hnz Hone Hst Hact) as Hok.
  unfold JS.or_null in Hf, Hok. rewrite Hd in Hf, Hok.
  split; [exact Hok|]. split; [exact Hf|].
  intros d' Hne'.
  rewrite (validate_found (mkValidateReq (Some oc) (Some d')) _ oc d' _
             eq_refl Hnz eq_refl Hne' Hf). simpl.
  by rewrite bool_decide_eq_true_2 by exact Hst.
Qed.

(** X12. A reset by either route takes the license away: whatever the
    activation of a PAID order was, after the admin page's reset or an
    authorized API reset every license check for it is answered 403
    "Order not activated yet". *)
Theorem reset_revokes_the_license
        (r : ResetReq) db (id : ObjectId) (oc : Z) o (d : string) :
  Store.findById id db = Some o -> Store.findOne oc db = Some o ->
  oc <> 0%Z -> d <> "" -> status o = PAID ->
  r_secret r = ADMIN_ACTIVATE_SECRET env -> r_orderCode r = Some oc ->
  fst (post_api_validate (mkValidateReq (Some oc) (Some d))
         (snd (post_admin_activation_reset id db)))
  = Json 403 (JError "Order not activated yet")
  /\ fst (post_api_validate (mkValidateReq (Some oc) (Some d))
            (snd (post_api_admin_reset_activation env r db)))
     = Json 403 (JError "Order not activated yet").
Proof.
  intros Hid Hone Hnz Hne Hst Hsec Hr. split.
  - assert (Store.findOne oc (snd (post_admin_activation_reset id db))
            = Some (set_activation (Some default_activation) o)) as Hf.
    { simpl. by apply findOne_updateById. }
    rewrite (validate_found (mkValidateReq (Some oc) (Some d)) _ oc d _ eq_refl Hnz eq_refl Hne Hf). simpl.
    by rewrite bool_decide_eq_true_2 by exact Hst.
  - assert (Store.findOne oc (snd (post_api_admin_reset_activation env r db))
            = Some (set_activation None o)) as Hf.
    { unfold post_api_admin_reset_activation.
      rewrite bool_decide_eq_true_2, Hr, (truthy_num_Some oc Hnz) by done.
      simpl. by apply findOne_updateOne. }
    rewrite (validate_found (mkValidateReq (Some oc) (Some d)) _ oc d _ eq_refl Hnz eq_refl Hne Hf). simpl.
    by rewrite bool_decide_eq_true_2 by exact Hst.
Qed.

(** X13. The admin's mark-paid action stands in for the payment: an
    activation that is refused with "Order is not PAID" while the order is
    PENDING succeeds once the admin has marked the order paid. *)
Theorem admin_mark_paid_enables_activation
        w w' (r : ActivateReq) db (id : ObjectId) (oc : Z) o :
  Store.findById id db = Some o -> Store.findOne oc db = Some o ->
  a_orderCode r = Some oc -> oc <> 0%Z ->
  status o = PENDING -> is_activated o = false ->
  post_api_activate w' r db = (Json 400 (JError "Order is not PAID"), db)
  /\ fst (post_api_activate w' r (snd (post_admin_mark_paid w id db)))
     = Json 200
         (JActivated "Kích hoạt thành công" id oc
            (JS.or_null (a_deviceId r)) (Some (now w'))
            (JS.or_null (driveLink <$> Store.populate o db))).
Proof.
  intros Hid Hone Hr Hnz Hst Hact. split.
  - unfold post_api_activate.
    rewrite (activate_read_found w' r db oc o Hr Hnz Hone).
    rewrite bool_decide_eq_false_2; [reflexivity|]. by rewrite Hst.
  - assert (Store.findOne oc (snd (post_admin_mark_paid w id db))
            = Some (set_paid (now w) o)) as Hf.
    { simpl. by apply findOne_updateById. }
    rewrite (activate_succeeds w' r _ oc _ Hr Hnz Hf eq_refl Hact). simpl.
    by rewrite (findById_id id db o Hid), (findOne_orderCode oc db o Hone).
Qed.

(** X14. When [ADMIN_ACTIVATE_SECRET] is not configured, the API reset
    is open: a request without the [x-admin-secret] header passes the
    comparison of [undefined] with [undefined] and clears the activation
    of the order. A request that does send a header is refused. *)
Theorem api_reset_open_when_secret_unset (r : ResetReq) db (oc : Z) o :
  ADMIN_ACTIVATE_SECRET env = None ->
  r_orderCode r = Some oc -> oc <> 0%Z -> Store.findOne oc db = Some o ->
  (r_secret r = None ->
   fst (post_api_admin_reset_activation env r db) = Json 200 JOk
   /\ Store.findOne oc (snd (post_api_admin_reset_activation env r db))
      = Some (set_activation None o))
  /\ (forall s, r_secret r = Some s ->
      post_api_admin_reset_activation env r db
      = (Json 401 (JError "unauthorized"), db)).
Proof.
  intros Henv Hr Hnz Hone. unfold post_api_admin_reset_activation. split.
  - intros Hs.
    rewrite bool_decide_eq_true_2, Hr, (truthy_num_Some oc Hnz)
      by (by rewrite Hs, Henv).
    simpl. split; [reflexivity | by apply findOne_updateOne].
  - intros s Hs. rewrite bool_decide_eq_false_2; [reflexivity|].
    by rewrite Hs, Henv.
Qed.

End LicenseFlow.

Lemma activate_then_validate_witness :
  a_orderCode (Sample.activate_from "D1") = Some 42%Z
  /\ 42%Z <> 0%Z
  /\ a_deviceId (Sample.activate_from "D1") = Some "D1"
  /\ "D1" <> ""
  /\ Store.findOne 42 (Sample.db_of Sample.paid) = Some Sample.paid
  /\ Store.findById (_id Sample.paid) (Sample.db_of Sample.paid)
     = Some Sample.paid
  /\ status Sample.paid = PAID
  /\ is_activated Sample.paid = false
  /\ fst (post_api_validate (mkValidateReq (Some 42%Z) (Some "D1"))
            (snd (post_api_activate (Sample.world 3000 9)
                    (Sample.activate_from "D1") (Sample.db_of Sample.paid))))
     = Json 200 JOk.
Proof.
  split; [reflexivity|]. split; [discriminate|]. split; [reflexivity|].
  split; [discriminate|]. do 4 (split; [reflexivity|]).
  exact (f_equal fst
           (proj1 (activate_then_validate (Sample.world 3000 9)
                     (Sample.activate_from "D1") (Sample.db_of Sample.paid)
                     42 Sample.paid "D1"
                     eq_refl ltac:(discriminate) eq_refl ltac:(discriminate)
                     eq_refl eq_refl eq_refl eq_refl))).
Defined.

Lemma activate_without_device_then_validate_witness :
  a_orderCode (mkActivateReq (Some 42%Z) (Some "") HAbsent None None)
  = Some 42%Z
  /\ 42%Z <> 0%Z
  /\ JS.truthy_str
       (a_deviceId (mkActivateReq (Some 42%Z) (Some "") HAbsent None None))
     = false
  /\ Store.findOne 42 (Sample.db_of Sample.paid) = Some Sample.paid
  /\ Store.findById (_id Sample.paid) (Sample.db_of Sample.paid)
     = Some Sample.paid
  /\ status Sample.paid = PAID
  /\ is_activated Sample.paid = false
  /\ Store.findOne 42
       (snd (post_api_activate (Sample.world 3000 9)
               (mkActivateReq (Some 42%Z) (Some "") HAbsent None None)
               (Sample.db_of Sample.paid)))
     = Some (set_activation
               (Some (mkActivation true (Some 3000%Z) None (Some "")))
               Sample.paid).
Proof.
  split; [reflexivity|]. split; [discriminate|]. do 5 (split; [reflexivity|]).
  exact (proj1 (proj2
           (activate_without_device_then_validate (Sample.world 3000 9)
              (mkActivateReq (Some 42%Z) (Some "") HAbsent None None)
              (Sample.db_of Sample.paid) 42 Sample.paid
              eq_refl ltac:(discriminate) eq_refl eq_refl eq_refl eq_refl
              eq_refl))).
Defined.

Lemma reset_revokes_the_license_witness :
  Store.findById 1 (Sample.db_of Sample.activated) = Some Sample.activated
  /\ Store.findOne 42 (Sample.db_of Sample.activated) = Some Sample.activated
  /\ 42%Z <> 0%Z
  /\ "D1" <> ""
  /\ status Sample.activated = PAID
  /\ r_secret (mkResetReq (Some "s3cret") (Some 42%Z))
     = ADMIN_ACTIVATE_SECRET Sample.env
  /\ r_orderCode (mkResetReq (Some "s3cret") (Some 42%Z)) = Some 42%Z
  /\ fst (post_api_validate (mkValidateReq (Some 42%Z) (Some "D1"))
            (Sample.db_of Sample.activated))
     = Json 200 JOk
  /\ fst (post_api_validate (mkValidateReq (Some 42%Z) (Some "D1"))
            (snd (post_admin_activation_reset 1 (Sample.db_of Sample.activated))))
     = Json 403 (JError "Order not activated yet")
  /\ fst (post_api_validate (mkValidateReq (Some 42%Z) (Some "D1"))
            (snd (post_api_admin_reset_activation Sample.env
                    (mkResetReq (Some "s3cret") (Some 42%Z))
                    (Sample.db_of Sample.activated))))
     = Json 403 (JError "Order not activated yet").
Proof.
  do 2 (split; [reflexivity|]). do 2 (split; [discriminate|]).
  do 4 (split; [reflexivity|]).
  exact (reset_revokes_the_license Sample.env
           (mkResetReq (Some "s3cret") (Some 42%Z))
           (Sample.db_of Sample.activated) 1 42 Sample.activated "D1"
           eq_refl eq_refl ltac:(discriminate) ltac:(discriminate)
           eq_refl eq_refl eq_refl).
Defined.

Lemma admin_mark_paid_enables_activation_witness :
  Store.findById 12 Scenario.shop = Some Scenario.second
  /\ Store.findOne 1700000000002 Scenario.shop = Some Scenario.second
  /\ a_orderCode (mkActivateReq (Some 1700000000002%Z) (Some "desk") HAbsent
                    (Some "192.0.2.1") None) = Some 1700000000002%Z
  /\ 1700000000002%Z <> 0%Z
  /\ status Scenario.second = PENDING
  /\ is_activated Scenario.second = false
  /\ fst (post_api_activate (Scenario.world 1700000400000 16)
            (mkActivateReq (Some 1700000000002%Z) (Some "desk") HAbsent
               (Some "192.0.2.1") None)
            (snd (post_admin_mark_paid (Scenario.world 1700000300000 15) 12
                    Scenario.shop)))
     = Json 200
         (JActivated "Kích hoạt thành công" 12 1700000000002 (Some "desk")
            (Some 1700000400000%Z) (Some "https://drive/blog")).
Proof.
  do 3 (split; [reflexivity|]). split; [discriminate|].
  do 2 (split; [reflexivity|]).
  exact (proj2 (admin_mark_paid_enables_activation
                  (Scenario.world 1700000300000 15)
                  (Scenario.world 1700000400000 16)
                  (mkActivateReq (Some 1700000000002%Z) (Some "desk") HAbsent
                     (Some "192.0.2.1") None)
                  Scenario.shop 12 1700000000002 Scenario.second
                  eq_refl eq_refl eq_refl ltac:(discriminate)
                  eq_refl eq_refl)).
Defined.

Lemma api_reset_open_when_secret_unset_witness :
  ADMIN_ACTIVATE_SECRET Scenario.env = None
  /\ r_orderCode (mkResetReq None (Some 1700000000001%Z))
     = Some 1700000000001%Z
  /\ 1700000000001%Z <> 0%Z
  /\ Store.findOne 1700000000001 Scenario.shop = Some Scenario.first
  /\ r_secret (mkResetReq None (Some 1700000000001%Z)) = None
  /\ fst (post_api_admin_reset_activation Scenario.env
            (mkResetReq None (Some 1700000000001%Z)) Scenario.shop)
     = Json 200 JOk
  /\ Store.findOne 1700000000001
       (snd (post_api_admin_reset_activation Scenario.env
               (mkResetReq None (Some 1700000000001%Z)) Scenario.shop))
     = Some (set_activation None Scenario.first).
Proof.
  do 2 (split; [reflexivity|]). split; [discriminate|].
  do 2 (split; [reflexivity|]).
  exact (proj1 (api_reset_open_when_secret_unset Scenario.env
                  (mkResetReq None (Some 1700000000001%Z)) Scenario.shop
                  1700000000001 Scenario.first
                  eq_refl eq_refl ltac:(discriminate) eq_refl) eq_refl).
Defined.

(** ** The address recorded with an activation *)

(** X15. The [ip] recorded by [POST /api/activate] is [undefined] only
    for an empty array-valued [x-forwarded-for]; an array gives its first
    element; when the header is absent or empty and the socket has no
    address, [req.ip] is taken, and when that is missing too, the empty
    string. *)
Theorem client_ip_fallbacks (r : ActivateReq) :
  (client_ip r = None <-> a_forwarded r = HArray [])
  /\ (forall x l, a_forwarded r = HArray (x :: l) -> client_ip r = Some x)
  /\ (a_forwarded r = HAbsent \/ a_forwarded r = HString "" ->
      JS.truthy_str (a_remoteAddress r) = false ->
      (forall a : string, a_ip r = Some a -> a <> "" -> client_ip r = Some a)
      /\ (JS.truthy_str (a_ip r) = false -> client_ip r = Some "")).
Proof.
  split; [|split].
  - unfold client_ip.
    destruct (a_forwarded r) as [|s|[|x l]]; unfold JS.or_else; simpl.
    + destruct (JS.truthy_str (a_remoteAddress r)) eqn:E1.
      { destruct (a_remoteAddress r); [|discriminate]. split; discriminate. }
      destruct (JS.truthy_str (a_ip r)) eqn:E2; [|split; discriminate].
      destruct (a_ip r); [|discriminate]. split; discriminate.
    + destruct (negb (s =? "")%string); [split; discriminate|].
      destruct (JS.truthy_str (a_remoteAddress r)) eqn:E1.
      { destruct (a_remoteAddress r); [|discriminate]. split; discriminate. }
      destruct (JS.truthy_str (a_ip r)) eqn:E2; [|split; discriminate].
      destruct (a_ip r); [|discriminate]. split; discriminate.
    + done.
    + split; discriminate.
  - intros x l H. unfold client_ip. by rewrite H.
  - intros Hh Hremote.
    assert (client_ip r
            = JS.or_else (a_remoteAddress r) (JS.or_else (a_ip r) (Some "")))
      as ->.
    { unfold client_ip. by destruct Hh as [->| ->]. }
    unfold JS.or_else. rewrite Hremote. split.
    + intros a -> Hne. by rewrite (truthy_str_Some a Hne).
    + by intros ->.
Qed.

(** ** Ordering what is not in the catalogue *)

Section Shelf.

Variable hmac : string -> string -> string.
Variable env : Env.

(** X16. An item the admin has deleted cannot be ordered any more:
    [POST /order] for it answers 404 and creates nothing, while the
    orders placed before stay as they are. An edit of an unknown item
    does not create it either. *)
Theorem deleted_item_cannot_be_ordered
        (w : World) (f : OrderForm) (c' : SourceCode) (db : DB) :
  post_order hmac env w f (snd (delete_admin_codes (f_codeId f) db))
  = (Send 404 "Code not found", snd (delete_admin_codes (f_codeId f) db))
  /\ orders (snd (delete_admin_codes (f_codeId f) db)) = orders db
  /\ (codes db !! f_codeId f = None ->
      snd (put_admin_codes (f_codeId f) c' db) = db
      /\ post_order hmac env w f (snd (put_admin_codes (f_codeId f) c' db))
         = (Send 404 "Code not found", db)).
Proof.
  split; [|split].
  - unfold post_order. simpl. by rewrite lookup_delete_eq.
  - reflexivity.
  - intros Hnone. unfold put_admin_codes. simpl. rewrite Hnone.
    split; [reflexivity|]. unfold post_order. by rewrite Hnone.
Qed.

End Shelf.

(** ** The message that is signed *)

Lemma pretty_N_go_colon_free (x : N) (s : string) :
  colon_free s = true -> colon_free (pretty_N_go x s) = true.
Proof.
  revert s. induction (N.lt_wf_0 x) as [x _ IH]. intros s Hs.
  destruct (decide (x = 0%N)) as [->|Hx].
  - by rewrite pretty_N_go_0.
  - rewrite pretty_N_go_step by lia. apply IH.
    + apply N.div_lt; lia.
    + simpl. rewrite Hs. unfold pretty_N_char.
      by repeat case_match.
Qed.

Lemma template_num_colon_free (n : Z) : colon_free (JS.template_num n) = true.
Proof.
  unfold JS.template_num, pretty, pretty_Z.
  destruct n as [|p|p]; [reflexivity| |].
  - unfold pretty, pretty_positive, pretty, pretty_N.
    case_decide; [reflexivity | by apply pretty_N_go_colon_free].
  - simpl. unfold pretty, pretty_positive, pretty, pretty_N.
    case_decide; [reflexivity | by apply pretty_N_go_colon_free].
Qed.

Lemma colon_split (u u' s s' : string) :
  colon_free u = true -> colon_free u' = true ->
  u ++ ":" ++ s = u' ++ ":" ++ s' -> u = u' /\ s = s'.
Proof.
  revert u'. induction u as [|c u IH]; intros [|c' u'];
    unfold String.append; fold String.append; simpl.
  - intros _ _ [= ->]. done.
  - intros _ [Hc _]%andb_true_iff [= <- _]. discriminate.
  - intros [Hc _]%andb_true_iff _ [= -> _]. discriminate.
  - intros [_ Hu]%andb_true_iff [_ Hu']%andb_true_iff [= -> H].
    destruct (IH u' Hu Hu' H) as [-> ->]. done.
Qed.

(** X17. The message [`${orderCode}:${status}`] that is signed at order
    time and recomputed on the return trip is unambiguous: two messages
    are equal only for the same order code and the same status, also when
    the status has colons of its own. *)
Theorem signed_message_determines_code_and_status (a b : Z) (s t : string) :
  JS.template_num a ++ ":" ++ s = JS.template_num b ++ ":" ++ t ->
  a = b /\ s = t.
Proof.
  intros H.
  destruct (colon_split _ _ _ _ (template_num_colon_free a)
              (template_num_colon_free b) H) as [Hn ->].
  split; [|reflexivity]. by apply (inj pretty).
Qed.

Lemma signed_message_determines_code_and_status_witness :
  JS.template_num 42 ++ ":" ++ "PAID" = JS.template_num 42 ++ ":" ++ "PAID"
  /\ 42%Z = 42%Z /\ "PAID" = "PAID".
Proof.
  split; [reflexivity|].
  apply (signed_message_determines_code_and_status 42 42 "PAID" "PAID").
  reflexivity.
Defined.

(** ** The handlers on the second shop *)

(** Two orders in the same millisecond: the second is refused and
    nothing is stored for it. *)
Example second_order_in_the_same_millisecond :
  post_order Sample.mac Scenario.env (Scenario.world 1700000100000 14)
    Scenario.form
    (snd (post_order Sample.mac Scenario.env (Scenario.world 1700000100000 13)
            Scenario.form Scenario.shop))
  = (Send 500 "Không tạo được đơn / link thanh toán.",
     snd (post_order Sample.mac Scenario.env (Scenario.world 1700000100000 13)
            Scenario.form Scenario.shop)).
Proof. vm_compute. reflexivity. Qed.

(** The provider is asked for the order code and the price of the item,
    with the signed return URL. *)
Example checkout_request_of_the_form :
  checkout_request Sample.mac "checksum" (BASE_URL Scenario.env)
    (Scenario.world 1700000100000 13) Scenario.form Scenario.theme
  = mkPaymentRequest 1700000100000 250000 "Thanh toán đơn mua code"
      "https://muacode.test/order/13/success?orderCode=1700000100000&status=PAID&sig=checksum|1700000100000:PAID"
      "https://muacode.test/order/13/cancel"
      (Some "Dung") (Some "dung@example.org") [("Blog theme", 1%Z, 250000%Z)].
Proof. vm_compute. reflexivity. Qed.

(** After the provider failed, the order is there, PENDING and without
    checkout URL. *)
Example order_left_behind_by_failed_checkout :
  (fun o => (_id o, status o, checkoutUrl o))
    <$> orders (snd (post_order Sample.mac Scenario.env
                       (Scenario.offline 1700000100000 13) Scenario.form
                       Scenario.shop))
  = [ (11%positive, PAID, Some "https://pay/11");
      (12%positive, PENDING, None);
      (13%positive, PENDING, None) ].
Proof. vm_compute. reflexivity. Qed.
